(** * node-elm-compiler: the argument builder, the invoker and the capture
    functions of [src/index.ts], embedded as Rocq functions.

    JavaScript values are an inductive type.  An object is the list of its
    own enumerable properties in enumeration order; it has no prototype
    chain, so every enumerable property of an object of this development is
    its own.  [_.defaults] would also copy the enumerable properties a
    source inherits, which [_.map] does not visit: what is proved of the
    two together is proved of objects without inherited enumerable
    properties.  An object whose [length] is a length is array-like for
    lodash, whose [_.map] then visits the indices below the length and no
    key: [Lodash.map] does the same, and a theorem that needs the options
    to be iterated by key says so in a hypothesis.  Property names are
    ordinary names; a property named [__proto__] is excluded by hypothesis
    where the options go through [_.defaults] (see [ordinary]).
    Code that can [throw] returns a [result]; code that logs, spawns or
    writes to the caller's options object runs in a small state monad over
    the caller's object and the trace of calls.  What index.ts imports
    ([cross-spawn], [./options], [path], [temp], [fs], [JSON]) is a variable
    of the section that holds the code. *)

From Stdlib Require Import String Ascii List ZArith Bool DecimalString.
Import ListNotations.
Local Open Scope string_scope.
Local Open Scope list_scope.
Set Warnings "-register-all".

(** ** JavaScript values *)

Inductive value : Type :=
| VUndefined
| VNull
| VBool (b : bool)
| VNum (n : Z)                      (* an integer-valued number *)
| VNaN
| VStr (s : string)
| VArr (items : list value)
| VObj (props : list (string * value))
| VFun (name : string).

Definition object := list (string * value).

(** [typeof v] *)
Definition typeof (v : value) : string :=
  match v with
  | VUndefined => "undefined"
  | VNull => "object"
  | VBool _ => "boolean"
  | VNum _ | VNaN => "number"
  | VStr _ => "string"
  | VArr _ | VObj _ => "object"
  | VFun _ => "function"
  end.

(** ToBoolean: what [if (v)] tests. *)
Definition truthy (v : value) : bool :=
  match v with
  | VUndefined | VNull | VNaN => false
  | VBool b => b
  | VNum n => negb (n =? 0)%Z
  | VStr s => negb (s =? EmptyString)
  | VArr _ | VObj _ | VFun _ => true
  end.

Definition quote : string := String (ascii_of_nat 34) EmptyString.
Definition newline : string := String (ascii_of_nat 10) EmptyString.

(** ** Objects *)

(** [o[k]]: the value bound to [k], [undefined] when [k] is absent. *)
Fixpoint getProp (o : object) (k : string) : value :=
  match o with
  | [] => VUndefined
  | (k', v) :: rest => if k' =? k then v else getProp rest k
  end.

(** [o[k] = v]: an existing key keeps its place, a new key goes last.  (A
    new key that is an array index is enumerated before the names; the one
    such write of index.ts is [_.defaults] copying an index of the caller's
    options, after [spawn]: the index then stands after [spawn] here and
    before it in JavaScript, and [spawn] is recognized and gives no
    token.) *)
Fixpoint setProp (o : object) (k : string) (v : value) : object :=
  match o with
  | [] => [(k, v)]
  | (k', v') :: rest =>
      if k' =? k then (k, v) :: rest else (k', v') :: setProp rest k v
  end.

(** [new Error(message)], represented by its [message] property. *)
Definition newError (message : string) : value :=
  VObj [("message", VStr message)].

(** ** Keys *)

(** The key an iteratee of lodash receives: the name of a property, or the
    index, a number, of an element of an array-like collection. *)
Inductive key : Type :=
| KName (name : string)
| KIndex (index : nat).

Coercion KName : string >-> key.

(** [opt === "literal"]: a number is never a string. *)
Definition keyIs (opt : key) (literal : string) : bool :=
  match opt with
  | KName name => name =? literal
  | KIndex _ => false
  end.

(** ToString of an index, as [o[index]] and string concatenation apply it:
    its decimal digits. *)
Definition indexKey (index : nat) : string :=
  NilEmpty.string_of_uint (Nat.to_uint index).

(** ToString of a key. *)
Definition keyText (opt : key) : string :=
  match opt with
  | KName name => name
  | KIndex index => indexKey index
  end.

(** ** Results of code that may throw *)

Inductive result (A : Type) : Type :=
| Ok (a : A)
| Throw (e : value).
Arguments Ok {A} a.
Arguments Throw {A} e.

Definition rbind {A B} (r : result A) (f : A -> result B) : result B :=
  match r with
  | Ok a => f a
  | Throw e => Throw e
  end.

Notation "x <-? r ; k" := (rbind r (fun x => k))
  (at level 61, r at next level, right associativity).

(** ** lodash *)

Module Lodash.

(** One step of [_.defaults]: [dest[k]] is assigned when [dest] has no
    property [k] of its own or has it bound to [undefined] (the test of
    lodash, [undefined] or the value [Object.prototype] gives under [k],
    comes to this under an ordinary name). *)
Definition assignDefault (dest : object) (kv : string * value) : object :=
  match getProp dest (fst kv) with
  | VUndefined => setProp dest (fst kv) (snd kv)
  | _ => dest
  end.

(** [_.defaults(dest, ...sources)]: sources are applied left to right,
    each over its enumerable properties ([keysIn]), which for the objects of
    this development are its own. *)
Definition defaults (dest : object) (sources : list object) : object :=
  fold_left (fun d src => fold_left assignDefault src d) sources dest.

(** [_.keys(o)] *)
Definition keys (o : object) : list string := List.map fst o.

Definition MAX_SAFE_INTEGER : Z := 9007199254740991.
Definition MAX_ARRAY_LENGTH : Z := 4294967295.

(** [isLength(v)]: a number that is an integer from 0 to MAX_SAFE_INTEGER. *)
Definition isLength (v : value) : bool :=
  match v with
  | VNum n => (0 <=? n)%Z && (n <=? MAX_SAFE_INTEGER)%Z
  | _ => false
  end.

(** [isArrayLike(o)] for an object: its [length] is a length. *)
Definition isArrayLike (o : object) : bool := isLength (getProp o "length").

(** [o.length] of an array-like object. *)
Definition lengthOf (o : object) : Z :=
  match getProp o "length" with
  | VNum n => n
  | _ => 0%Z
  end.

(** One call of the iteratee after the other; the first exception ends the
    iteration. *)
Fixpoint each {X A} (visit : X -> result A) (items : list X)
  : result (list A) :=
  match items with
  | [] => Ok []
  | x :: rest =>
      a <-? visit x;
      l <-? each visit rest;
      Ok (a :: l)
  end.

(** The RangeError of [Array(n)] for an [n] beyond 2^32 - 1. *)
Definition invalidArrayLength : value := newError "Invalid array length".

(** [_.map(o, iteratee)] over an object, for an iteratee that may throw.
    An array-like object is iterated as an array: [Array(o.length)] is
    allocated, then the iteratee is called on [o[index]] and the index, for
    the indices below the length, and no key is visited.  Any other object
    is iterated over its keys, in order. *)
Definition map {A} (o : object) (iteratee : value -> key -> result A)
  : result (list A) :=
  if isArrayLike o then
    if (lengthOf o <=? MAX_ARRAY_LENGTH)%Z then
      each (fun index => iteratee (getProp o (indexKey index)) (KIndex index))
           (seq 0 (Z.to_nat (lengthOf o)))
    else Throw invalidArrayLength
  else each (fun kv => iteratee (snd kv) (KName (fst kv))) o.

(** [_.flatten] of an array of arrays: one level. *)
Definition flatten {A} (l : list (list A)) : list A := List.concat l.

(** [_.concat(array, v, array')]: an array argument is spread, any other
    value is appended as it is. *)
Definition spread (v : value) : list value :=
  match v with
  | VArr items => items
  | _ => [v]
  end.

Definition concat (a : list value) (v : value) (b : list value) : list value :=
  a ++ spread v ++ b.

End Lodash.

(** ** The child process, as the capture functions observe it *)

Inductive chunk : Type :=
| Stdout (text : string)
| Stderr (text : string).

Definition chunkText (c : chunk) : string :=
  match c with
  | Stdout t | Stderr t => t
  end.

(** What a spawned compiler does: the [data] events of its two streams in
    arrival order, then [close] with the exit code ([None] is the [null]
    code of a process ended by a signal). *)
Record ChildProcess : Type := mkProcess {
  dataEvents : list chunk;
  exitCode : option Z
}.

(** [ProcessedOptions], the result of [processOptions] of [./options]. *)
Record ProcessedOptions : Type := mkProcessed {
  pathToElm : string;
  processOpts : value
}.

Inductive event : Type :=
| ESpawn (fn : value) (path : string) (args : list value) (opts : value)
| ELog (parts : list value).

Definition isSpawn (e : event) : bool :=
  match e with
  | ESpawn _ _ _ _ => true
  | ELog _ => false
  end.

(** The caller's options object and the calls made so far. *)
Record store : Type := mkStore {
  callerOptions : object;
  trace : list event
}.

Definition spawnCalls (st : store) : list event := filter isSpawn (trace st).

Definition M (A : Type) : Type := store -> result A * store.

Definition ret {A} (a : A) : M A := fun st => (Ok a, st).
Definition throw {A} (e : value) : M A := fun st => (Throw e, st).
Definition bind {A B} (m : M A) (f : A -> M B) : M B :=
  fun st =>
    match m st with
    | (Ok a, st') => f a st'
    | (Throw e, st') => (Throw e, st')
    end.
Definition lift {A} (r : result A) : M A := fun st => (r, st).

(** The outcome of [body], caught: [try { body } catch (err) { ... }] with
    the handler left to the caller. *)
Definition attempt {A} (body : M A) : M (result A) :=
  fun st => let (r, st') := body st in (Ok r, st').

(** [try { body } catch (err) { handler }] *)
Definition tryCatch {A} (body : M A) (handler : value -> M A) : M A :=
  fun st =>
    match body st with
    | (Ok a, st') => (Ok a, st')
    | (Throw e, st') => handler e st'
    end.

Definition emit (e : event) : M unit :=
  fun st => (Ok tt, mkStore (callerOptions st) (trace st ++ [e])).

Definition readOptions : M object := fun st => (Ok (callerOptions st), st).

(** [options[k] = v] on the caller's object. *)
Definition writeOption (k : string) (v : value) : M unit :=
  fun st => (Ok tt, mkStore (setProp (callerOptions st) k v) (trace st)).

Notation "x <- m ;; k" := (bind m (fun x => k))
  (at level 61, m at next level, right associativity).
Notation "m ;; k" := (bind m (fun _ => k))
  (at level 61, right associativity).

(** A settled promise. *)
Inductive promise (A : Type) : Type :=
| Resolved (a : A)
| Rejected (reason : value).
Arguments Resolved {A} a.
Arguments Rejected {A} reason.

(** ** A concrete host, for the examples *)

Module Example.

Definition spawn : value := VFun "spawn".
Definition spawnSync : value := VFun "spawn.sync".

(** A compiler that reports a parse error on both streams and exits 1. *)
Definition failedRun : ChildProcess :=
  mkProcess [Stdout "-- PARSE ERROR "; Stderr "Bad.elm"; Stdout " line 3"]
            (Some 1%Z).

(** A compiler that succeeds. *)
Definition goodRun : ChildProcess := mkProcess [Stdout "Success!"] (Some 0%Z).

Definition failing (fn : value) (path : string) (args : list value)
  (opts : value) : result ChildProcess := Ok failedRun.

Definition succeeding (fn : value) (path : string) (args : list value)
  (opts : value) : result ChildProcess := Ok goodRun.

Definition processOptions (options : object) : result ProcessedOptions :=
  Ok (mkProcessed "elm" (getProp options "processOpts")).

Definition toString (v : value) : string :=
  match v with
  | VStr s => s
  | _ => "[object Object]"
  end.

Definition stringify (s : string) : string := (quote ++ s ++ quote)%string.

(** The extension of a path: from its last dot on, empty when it has none. *)
Fixpoint fromLastDot (s : string) : option string :=
  match s with
  | EmptyString => None
  | String c rest =>
      match fromLastDot rest with
      | Some ext => Some ext
      | None => if Ascii.eqb c "."%char then Some s else None
      end
  end.

Definition extname (v : value) : result string :=
  match v with
  | VStr p =>
      Ok match fromLastDot p with
         | Some ext => ext
         | None => EmptyString
         end
  | _ => Throw (newError "The path argument must be of type string")
  end.

Definition tempOpen (suffix : string) : result string :=
  Ok ("/tmp/elm" ++ suffix)%string.

(** The temporary file after a good run, and after a failed one (the
    compiler has written nothing to it). *)
Definition compiledFile (path : string) : result string := Ok "compiled".
Definition emptyFile (path : string) : result string := Ok EmptyString.

Definition oneSource : value := VStr "Main.elm".
Definition twoSources : value := VArr [VStr "Main.elm"; VStr "Worker.elm"].

Definition release : object :=
  [("output", VStr "elm.js"); ("optimize", VBool true);
   ("verbose", VBool false); ("cwd", VStr "fixtures")].

Definition runtimeThenOptimize : object :=
  [("runtimeOptions", VArr [VStr "-A128M"]); ("optimize", VBool true)].

Definition withFoo : object :=
  [("foo", VStr "bar"); ("output", VStr "/dev/null"); ("verbose", VBool true);
   ("cwd", VStr "fixtures")].


Definition quiet : store := mkStore [("cwd", VStr "fixtures")] [].

Definition enoent : value :=
  VObj [("message", VStr "spawn elm ENOENT"); ("code", VStr "ENOENT")].

(** A spawn function that fails to start the compiler. *)
Definition throwing (fn : value) (path : string) (args : list value)
  (opts : value) : result ChildProcess := Throw enoent.

Definition noTemp (suffix : string) : result string :=
  Throw (newError "EACCES: permission denied, open").

Definition unreadable (path : string) : result string :=
  Throw (newError "ENOENT: no such file or directory, open").

Definition typed : object :=
  [("output", VStr "elm.js");
   ("runtimeOptions", VArr [VStr "-A128M"; VStr "-H128M"]);
   ("debug", VBool true)].

Definition ownSpawn : object :=
  [("spawn", VFun "mine"); ("cwd", VStr "fixtures"); ("output", VUndefined)].

Definition chatty : store := mkStore [("verbose", VBool true)] [].
Definition badOutput : store := mkStore [("output", VNum 1)] [].
Definition fooStore : store := mkStore withFoo [].

Definition releaseArgs : list value :=
  [VStr "make"; VStr "Main.elm"; VStr "--output"; VStr "elm.js";
   VStr "--optimize"].


Definition outputCounted : object :=
  [("output", VStr "elm.js"); ("length", VNum 0)].

Definition fooOutputCounted : object :=
  [("foo", VStr "bar"); ("output", VStr "elm.js"); ("length", VNum 2)].

Definition runtimeCounted : object :=
  [("length", VNum 0); ("runtimeOptions", VArr [VStr "-A128M"])].

Definition debugCounted : object :=
  [("debug", VBool true); ("length", VNum 0)].

(** A first element that is truthy. *)
Definition elementCounted : object :=
  [("0", VStr "x"); ("length", VNum 1)].

Definition counted : store := mkStore [("length", VNum 0)] [].

End Example.

(** ** index.ts *)

Section Compiler.

(** The imports of [cross-spawn]: [spawn] and [spawn.sync]. *)
Variable spawn : value.
Variable spawn_sync : value.

(** Calling a function value with (path, args, processOpts): it throws or
    returns a process. *)
Variable callFunction :
  value -> string -> list value -> value -> result ChildProcess.

(** [processOptions] of [./options]. *)
Variable processOptions : object -> result ProcessedOptions.

(** ToString of a value, as string concatenation applies it. *)
Variable toString : value -> string.

(** [JSON.stringify] of a string. *)
Variable JSON_stringify : string -> string.

(** [path.extname]: it throws a TypeError on an argument that is not a
    string. *)
Variable extname : value -> result string.

(** [temp.open({suffix})] and [temp.openSync({suffix})]: the path of the
    new file, or the error. *)
Variable temp_open : string -> result string.

(** [fs.readFile(path, utf8)] and [fs.readFileSync]: the text of the file
    once the compiler has ended, or the error. *)
Variable readFile : string -> result string.

Definition defaultOptions : object :=
  [ ("spawn", spawn);
    ("runtimeOptions", VUndefined);
    ("cwd", VUndefined);
    ("pathToElm", VUndefined);
    ("help", VUndefined);
    ("output", VUndefined);
    ("report", VUndefined);
    ("debug", VUndefined);
    ("verbose", VBool false);
    ("processOpts", VUndefined);
    ("docs", VUndefined);
    ("optimize", VUndefined) ].

Definition supportedOptions : list string := Lodash.keys defaultOptions.

(** [supportedOptions.indexOf(opt) === -1] *)
Definition unsupported (opt : key) : bool :=
  negb (existsb (keyIs opt) supportedOptions).

Definition prepareOptions (options : object) (spawnFn : value) : object :=
  Lodash.defaults [("spawn", spawnFn)] [options; defaultOptions].

Definition prepareSources (sources : value) : result (list value) :=
  match sources with
  | VArr items => Ok items
  | VStr s => Ok [VStr s]
  | _ => Throw (VStr "compile() received neither an Array nor a String for its sources argument.")
  end.

Definition yesMessage : string :=
  "node-elm-compiler received the `yes` option, but that was removed in Elm 0.19. Try re-running without passing the `yes` option.".
Definition warnMessage : string :=
  "node-elm-compiler received the `warn` option, but that was removed in Elm 0.19. Try re-running without passing the `warn` option.".
Definition pathToMakeMessage : string :=
  "node-elm-compiler received the `pathToMake` option, but that was renamed to `pathToElm` in Elm 0.19. Try re-running after renaming the parameter to `pathToElm`.".
Definition unrecognizedMessage (opt : key) : string :=
  ("node-elm-compiler was given an unrecognized Elm compiler option: "
   ++ keyText opt)%string.

(** The iteratee of [compilerArgsFromOptions]. *)
Definition optionArgs (val : value) (opt : key) : result (list value) :=
  if truthy val then
    if keyIs opt "help" then Ok [VStr "--help"]
    else if keyIs opt "output" then Ok [VStr "--output"; val]
    else if keyIs opt "report" then Ok [VStr "--report"; val]
    else if keyIs opt "debug" then Ok [VStr "--debug"]
    else if keyIs opt "docs" then Ok [VStr "--docs"; val]
    else if keyIs opt "optimize" then Ok [VStr "--optimize"]
    else if keyIs opt "runtimeOptions" then
      Ok (Lodash.concat [VStr "+RTS"] val [VStr "-RTS"])
    else if unsupported opt then
      if keyIs opt "yes" then Throw (newError yesMessage)
      else if keyIs opt "warn" then Throw (newError warnMessage)
      else if keyIs opt "pathToMake" then Throw (newError pathToMakeMessage)
      else Throw (newError (unrecognizedMessage opt))
    else Ok []
  else Ok [].

Definition compilerArgsFromOptions (options : object) : result (list value) :=
  l <-? Lodash.map options optionArgs;
  Ok (Lodash.flatten l).

Definition prepareProcessArgs (sources : value) (options : object)
  : result (list value) :=
  preparedSources <-? prepareSources sources;
  compilerArgs <-? compilerArgsFromOptions options;
  (* [preparedSources] is an array, hence truthy: the first branch of the
     conditional is the one taken *)
  Ok ([VStr "make"] ++ (preparedSources ++ compilerArgs)).

(** [v.k], for the two properties the classifier reads: reading a property
    of [null] or [undefined] raises a TypeError. *)
Definition readProp (v : value) (k : string) : result value :=
  match v with
  | VNull =>
      Throw (newError ("Cannot read properties of null (reading '" ++ k ++ "')")%string)
  | VUndefined =>
      Throw (newError ("Cannot read properties of undefined (reading '" ++ k ++ "')")%string)
  | VObj props => Ok (getProp props k)
  | _ => Ok VUndefined
  end.

(** [(typeof err === "object") && (typeof err.k === "string")], with the
    string when the test holds. *)
Definition objectWithString (err : value) (k : string) : result (option string) :=
  if typeof err =? "object" then
    v <-? readProp err k;
    match v with
    | VStr s => Ok (Some s)
    | _ => Ok None
    end
  else Ok None.

Definition compilerErrorToString (err : value) (pathToElm : string)
  : result string :=
  c <-? objectWithString err "code";
  match c with
  | Some code =>
      if code =? "ENOENT" then
        Ok ("Could not find Elm compiler " ++ quote ++ pathToElm ++ quote
            ++ ". Is it installed?")%string
      else if code =? "EACCES" then
        Ok ("Elm compiler " ++ quote ++ pathToElm ++ quote
            ++ " did not have permission to run. Do you need to give it executable permissions?")%string
      else
        Ok ("Error attempting to run Elm compiler " ++ quote ++ pathToElm
            ++ quote ++ ":" ++ newline ++ toString err)%string
  | None =>
      m <-? objectWithString err "message";
      match m with
      | Some message => Ok (JSON_stringify message)
      | None =>
          Ok ("Exception thrown when attempting to run Elm compiler "
              ++ JSON_stringify pathToElm)%string
      end
  end.

Definition getSuffix (outputPath : value) (defaultSuffix : string)
  : result string :=
  if truthy outputPath then
    ext <-? extname outputPath;
    Ok (if ext =? EmptyString then defaultSuffix else ext)
  else Ok defaultSuffix.

(** [fn(path, args, opts)] *)
Definition call (fn : value) (path : string) (args : list value) (opts : value)
  : M ChildProcess :=
  fun st =>
    (callFunction fn path args opts,
     mkStore (callerOptions st) (trace st ++ [ESpawn fn path args opts])).

Definition spawnTypeMessage (options : object) : string :=
  ("options.spawn was a(n) " ++ typeof (getProp options "spawn")
   ++ " instead of a function.")%string.

Definition runCompiler (sources : value) (options : object)
  (processedOptions : ProcessedOptions) : M ChildProcess :=
  if negb (typeof (getProp options "spawn") =? "function") then
    throw (VStr (spawnTypeMessage options))
  else
    processArgs <- lift (prepareProcessArgs sources options);;
    (if truthy (getProp options "verbose")
     then emit (ELog (VStr "Running" :: VStr (pathToElm processedOptions)
                        :: processArgs))
     else ret tt);;
    call (getProp options "spawn") (pathToElm processedOptions) processArgs
         (processOpts processedOptions).

(** The body shared by [compile] and [compileSync]; they differ in the
    function they bind.  [.on('error', ...)] registers a listener and
    returns the process. *)
Definition compileUsing (spawnFn : value) (sources : value) (options : object)
  : M ChildProcess :=
  processedOptions <- lift (processOptions options);;
  let optionsWithDefaults := prepareOptions options spawnFn in
  tryCatch
    (runCompiler sources optionsWithDefaults processedOptions)
    (fun err =>
       message <- lift (compilerErrorToString err (pathToElm processedOptions));;
       throw (newError message)).

Definition compile (sources : value) (options : object) : M ChildProcess :=
  compileUsing spawn sources options.

Definition compileSync (sources : value) (options : object) : M ChildProcess :=
  compileUsing spawn_sync sources options.

(** The [output] string of [compileToString], after every [data] event. *)
Definition collectOutput (compiler : ChildProcess) : string :=
  fold_left (fun output c => (output ++ chunkText c)%string)
            (dataEvents compiler) EmptyString.

Definition compilationFailed (output : string) : value :=
  newError ("Compilation failed" ++ newline ++ output)%string.

(** [compileToString(sources, options)], with [options] the caller's object
    of the store: the promise it returns, once settled. *)
Definition compileToString (sources : value) : M (promise string) :=
  options <- readOptions;;
  suffix <- lift (getSuffix (getProp options "output") ".js");;
  match temp_open suffix with
  | Throw err => ret (Rejected err)
  | Ok path =>
      writeOption "output" (VStr path);;
      writeOption "processOpts" (VObj [("stdio", VStr "pipe")]);;
      options <- readOptions;;
      started <- attempt (compile sources options);;
      match started with
      | Throw compileError => ret (Rejected compileError)
      | Ok compiler =>
          let output := collectOutput compiler in
          match exitCode compiler with
          | Some 0%Z =>
              (if truthy (getProp options "verbose")
               then emit (ELog [VStr output])
               else ret tt);;
              match readFile path with
              | Throw err => ret (Rejected err)
              | Ok data => ret (Resolved data)
              end
          | _ => ret (Rejected (compilationFailed output))
          end
      end
  end.

(** [compileToStringSync(sources, options)], with [options] the caller's
    object of the store. *)
Definition compileToStringSync (sources : value) : M string :=
  options <- readOptions;;
  suffix <- lift (getSuffix (getProp options "output") ".js");;
  file <- lift (temp_open suffix);;
  writeOption "output" (VStr file);;
  options <- readOptions;;
  compileSync sources options;;
  lift (readFile file).

(** ** The behaviour the specification describes *)

(** The token table of the options: what a key bound to [val] contributes. *)
Definition flagTokens (opt : string) (val : value) : list value :=
  if truthy val then
    if opt =? "help" then [VStr "--help"]
    else if opt =? "output" then [VStr "--output"; val]
    else if opt =? "report" then [VStr "--report"; val]
    else if opt =? "debug" then [VStr "--debug"]
    else if opt =? "docs" then [VStr "--docs"; val]
    else if opt =? "optimize" then [VStr "--optimize"]
    else if opt =? "runtimeOptions" then
      [VStr "+RTS"] ++ Lodash.spread val ++ [VStr "-RTS"]
    else []
  else [].

(** The flag tokens of a whole options object, key after key. *)
Definition flagsOf (options : object) : list value :=
  flat_map (fun kv => flagTokens (fst kv) (snd kv)) options.

(** The message of the error a rejected key raises. *)
Definition rejectionMessage (opt : string) : string :=
  if opt =? "yes" then yesMessage
  else if opt =? "warn" then warnMessage
  else if opt =? "pathToMake" then pathToMakeMessage
  else unrecognizedMessage opt.

(** A key is rejected when it is outside the recognized set and bound to a
    truthy value. *)
Definition rejected (opt : string) (val : value) : bool :=
  truthy val && unsupported opt.

(** The first rejected key, in enumeration order. *)
Fixpoint firstRejected (options : object) : option string :=
  match options with
  | [] => None
  | (k, v) :: rest => if rejected k v then Some k else firstRejected rest
  end.

(** A valid sources argument: one path or a list of paths. *)
Definition validSources (sources : value) : bool :=
  match sources with
  | VStr _ | VArr _ => true
  | _ => false
  end.

(** The normalized source list: a lone string wrapped, a list as it is. *)
Definition normalizedSources (sources : value) : list value :=
  match sources with
  | VStr s => [VStr s]
  | VArr items => items
  | _ => []
  end.

(** A valid configuration: no key bound to a truthy value is outside the
    recognized set (so, in particular, one whose keys are all recognized). *)
Definition validConfiguration (options : object) : Prop :=
  forall k v, In (k, v) options -> rejected k v = false.

(** The text the classifier is specified to give for [err]. *)
Definition genericMessage (pathToElm : string) : string :=
  ("Exception thrown when attempting to run Elm compiler "
   ++ JSON_stringify pathToElm)%string.

Definition stringField (err : value) (k : string) : option string :=
  match err with
  | VObj props =>
      match getProp props k with
      | VStr s => Some s
      | _ => None
      end
  | _ => None
  end.

Definition classified (err : value) (pathToElm : string) : string :=
  match stringField err "code", stringField err "message" with
  | Some code, _ =>
      if code =? "ENOENT" then
        ("Could not find Elm compiler " ++ quote ++ pathToElm ++ quote
         ++ ". Is it installed?")%string
      else if code =? "EACCES" then
        ("Elm compiler " ++ quote ++ pathToElm ++ quote
         ++ " did not have permission to run. Do you need to give it executable permissions?")%string
      else
        ("Error attempting to run Elm compiler " ++ quote ++ pathToElm
         ++ quote ++ ":" ++ newline ++ toString err)%string
  | None, Some message => JSON_stringify message
  | None, None => genericMessage pathToElm
  end.

(** The caller's object once [compileToString] has a temporary file. *)
Definition pipedStdio : value := VObj [("stdio", VStr "pipe")].

Definition overwritten (options : object) (path : string) : object :=
  setProp (setProp options "output" (VStr path)) "processOpts" pipedStdio.

(** The chunks of both streams, one after the other in arrival order. *)
Definition concatenation (chunks : list chunk) : string :=
  fold_right (fun c rest => (chunkText c ++ rest)%string) EmptyString chunks.

(** Every spawn call made since [before] carries [path] after the
    ["--output"] token. *)
Definition spawnsWithOutput (before after : list event) (path : string)
  : Prop :=
  forall fn p args opts,
    In (ESpawn fn p args opts) after ->
    In (ESpawn fn p args opts) before \/
    exists l1 l2, args = l1 ++ VStr "--output" :: VStr path :: l2.

(** The runtime block closes the argument list: nothing follows ["-RTS"]. *)
Definition runtimeBlockLast (tokens args : list value) : Prop :=
  exists front, args = front ++ [VStr "+RTS"] ++ tokens ++ [VStr "-RTS"].

(** No property of the options is named [__proto__].  That name is read
    and assigned through the accessor of [Object.prototype], and whether
    [_.defaults] copies such a property depends on the version of lodash:
    what is proved of the prepared options of arbitrary caller's options is
    proved of ordinary ones. *)
Definition ordinary (options : object) : Prop :=
  ~ In "__proto__" (List.map fst options).

(** The options are iterated by key, also once prepared: they are ordinary,
    and no [length] property of theirs is a length, so lodash does not take
    them for an array. *)
Definition keyed (options : object) : Prop :=
  ordinary options /\
  forall v, In ("length", v) options -> Lodash.isLength v = false.

(** Every spawn call made since [before] is the call of [compile] (or
    [compileSync]) on [options]: the bound function, called with the
    compiler path and the spawn options that [processOptions] gives for
    [options], and, for ordinary [options], with the arguments built from
    the prepared [options]. *)
Definition spawnsPrepared (before after : list event)
  (spawnFn sources : value) (options : object) : Prop :=
  forall fn p args opts,
    In (ESpawn fn p args opts) after ->
    In (ESpawn fn p args opts) before \/
    exists po,
      processOptions options = Ok po /\
      fn = getProp (prepareOptions options spawnFn) "spawn" /\
      p = pathToElm po /\
      opts = processOpts po /\
      (ordinary options ->
       prepareProcessArgs sources (prepareOptions options spawnFn) = Ok args).

(** ** Further notions, for the properties beyond the claims *)

(** An entry that can reach the command line: bound to a truthy value, under
    a key other than [spawn]. *)
Definition loudEntry (kv : string * value) : bool :=
  truthy (snd kv) && negb (fst kv =? "spawn").

Definition loud (o : object) : object := filter loudEntry o.

Definition isString (v : value) : bool :=
  match v with
  | VStr _ => true
  | _ => false
  end.

(** Sources that are strings: one path, or a list of paths. *)
Definition stringSources (sources : value) : bool :=
  match sources with
  | VStr _ => true
  | VArr items => forallb isString items
  | _ => false
  end.

(** Options whose values are typed as [Options] declares them, for the keys
    whose value becomes a token: [output], [report] and [docs] are strings,
    [runtimeOptions] is a list of strings. *)
Definition stringTokens (options : object) : Prop :=
  forall k v,
    In (k, v) options -> truthy v = true ->
    ((k = "output" \/ k = "report" \/ k = "docs") -> isString v = true) /\
    (k = "runtimeOptions" ->
     exists items, v = VArr items /\ forallb isString items = true).

(** What [runCompiler] records when it reaches the spawn: the log line of
    verbose mode, then the call. *)
Definition compileEvents (prepared : object) (po : ProcessedOptions)
  (args : list value) : list event :=
  (if truthy (getProp prepared "verbose")
   then [ELog (VStr "Running" :: VStr (pathToElm po) :: args)]
   else [])
  ++ [ESpawn (getProp prepared "spawn") (pathToElm po) args (processOpts po)].

(** The value [_.defaults] leaves under a key of the caller's options. *)
Definition withDefault (given fallback : value) : value :=
  match given with
  | VUndefined => fallback
  | _ => given
  end.

(** ** Lemmas on objects and on lodash *)

Lemma getProp_setProp_same (o : object) (k : string) (v : value) :
  getProp (setProp o k v) k = v.
Proof.
  induction o as [|[k' v'] rest IH]; simpl.
  - now rewrite String.eqb_refl.
  - destruct (k' =? k) eqn:E; simpl.
    + now rewrite String.eqb_refl.
    + now rewrite E.
Qed.

Lemma getProp_setProp_other (o : object) (k k0 : string) (v : value) :
  (k =? k0) = false -> getProp (setProp o k v) k0 = getProp o k0.
Proof.
  intros Hk.
  induction o as [|[k' v'] rest IH]; simpl.
  - now rewrite Hk.
  - destruct (k' =? k) eqn:E; simpl.
    + apply String.eqb_eq in E. subst k'. now rewrite Hk.
    + now rewrite IH.
Qed.

Lemma getProp_In (o : object) (k : string) (v : value) :
  getProp o k = v -> v <> VUndefined -> In (k, v) o.
Proof.
  induction o as [|[k' v'] rest IH]; simpl; intros Hg Hv.
  - congruence.
  - destruct (k' =? k) eqn:E.
    + apply String.eqb_eq in E. left. congruence.
    + right. now apply IH.
Qed.

Lemma truthy_defined (v : value) : truthy v = true -> v <> VUndefined.
Proof. intros H ->. discriminate. Qed.

Lemma assignDefault_other (dest : object) (kv : string * value) (k : string) :
  (fst kv =? k) = false ->
  getProp (Lodash.assignDefault dest kv) k = getProp dest k.
Proof.
  intros Hk. unfold Lodash.assignDefault.
  destruct (getProp dest (fst kv)); auto using getProp_setProp_other.
Qed.

Lemma assignDefault_defined (dest : object) (kv : string * value) (k : string) :
  getProp dest k <> VUndefined ->
  getProp (Lodash.assignDefault dest kv) k = getProp dest k.
Proof.
  intros Hd.
  destruct (fst kv =? k) eqn:E.
  - apply String.eqb_eq in E. unfold Lodash.assignDefault. rewrite E.
    destruct (getProp dest k) eqn:G; congruence.
  - now apply assignDefault_other.
Qed.

(** A property that is defined in the destination survives [_.defaults]. *)
Lemma defaults_keep (src dest : object) (k : string) :
  getProp dest k <> VUndefined ->
  getProp (fold_left Lodash.assignDefault src dest) k = getProp dest k.
Proof.
  revert dest.
  induction src as [|kv rest IH]; simpl; intros dest Hd; [reflexivity|].
  rewrite IH; rewrite assignDefault_defined; auto.
Qed.

(** A property that the destination lacks is taken from the source. *)
Lemma defaults_take (src dest : object) (k : string) :
  getProp dest k = VUndefined ->
  getProp src k <> VUndefined ->
  getProp (fold_left Lodash.assignDefault src dest) k = getProp src k.
Proof.
  revert dest.
  induction src as [|[k' v'] rest IH]; simpl; intros dest Hd Hs; [congruence|].
  destruct (k' =? k) eqn:E.
  - apply String.eqb_eq in E. subst k'.
    assert (Hset : getProp (Lodash.assignDefault dest (k, v')) k = v').
    { unfold Lodash.assignDefault. simpl. rewrite Hd.
      apply getProp_setProp_same. }
    rewrite defaults_keep; rewrite Hset; auto.
  - apply IH; [|assumption].
    rewrite assignDefault_other; auto.
Qed.

Lemma getProp_absent (o : object) (k : string) :
  ~ In k (map fst o) -> getProp o k = VUndefined.
Proof.
  induction o as [|[k' v'] rest IH]; simpl; intros Hn; [reflexivity|].
  destruct (k' =? k) eqn:E.
  - apply String.eqb_eq in E. exfalso. apply Hn. left. exact E.
  - apply IH. intros H. apply Hn. right. exact H.
Qed.

Lemma setProp_absent (o : object) (k : string) (v : value) :
  ~ In k (map fst o) -> setProp o k v = o ++ [(k, v)].
Proof.
  induction o as [|[k' v'] rest IH]; simpl; intros Hn; [reflexivity|].
  destruct (k' =? k) eqn:E.
  - apply String.eqb_eq in E. exfalso. apply Hn. left. exact E.
  - rewrite IH; [reflexivity|]. intros H. apply Hn. right. exact H.
Qed.

Lemma setProp_keys (o : object) (k k0 : string) (v : value) :
  In k0 (map fst (setProp o k v)) -> k0 = k \/ In k0 (map fst o).
Proof.
  induction o as [|[k' v'] rest IH]; simpl.
  - intros [H|[]]. left. symmetry. exact H.
  - destruct (k' =? k) eqn:E; simpl.
    + apply String.eqb_eq in E. subst k'.
      intros [H|H]; [left; symmetry; exact H|right; right; exact H].
    + intros [H|H]; [right; left; exact H|].
      destruct (IH H) as [H'|H']; [left; exact H'|right; right; exact H'].
Qed.

Lemma assignDefault_keys (dest : object) (kv : string * value) (k0 : string) :
  In k0 (map fst (Lodash.assignDefault dest kv)) ->
  k0 = fst kv \/ In k0 (map fst dest).
Proof.
  unfold Lodash.assignDefault.
  destruct (getProp dest (fst kv));
    try (intros H; now right).
  apply setProp_keys.
Qed.

Lemma getProp_NoDup (o : object) (k : string) (v : value) :
  NoDup (map fst o) -> In (k, v) o -> getProp o k = v.
Proof.
  induction o as [|[k' v'] rest IH]; simpl; intros Hnd Hin; [easy|].
  inversion Hnd as [|? ? Hout Hnd']; subst.
  destruct Hin as [Heq|Hin].
  - injection Heq as -> ->. now rewrite String.eqb_refl.
  - destruct (k' =? k) eqn:E; [|auto].
    apply String.eqb_eq in E. subst k'.
    exfalso. apply Hout. apply (in_map fst) in Hin. exact Hin.
Qed.

(** A source without a defined binding of [k] leaves [k] undefined. *)
Lemma defaults_skip (src dest : object) (k : string) :
  (forall v, In (k, v) src -> v = VUndefined) ->
  getProp dest k = VUndefined ->
  getProp (fold_left Lodash.assignDefault src dest) k = VUndefined.
Proof.
  revert dest.
  induction src as [|[k' v'] rest IH]; simpl; intros dest Hall Hd;
    [assumption|].
  apply IH; [intros v Hin; apply Hall; now right|].
  destruct (k' =? k) eqn:E.
  - apply String.eqb_eq in E. subst k'.
    rewrite (Hall v') by now left.
    unfold Lodash.assignDefault. cbn [fst snd]. rewrite Hd.
    apply getProp_setProp_same.
  - rewrite assignDefault_other; auto.
Qed.

(** With distinct keys in the source, a key the destination lacks ends up
    with what the source binds to it. *)
Lemma defaults_fill (src dest : object) (k : string) :
  NoDup (map fst src) ->
  getProp dest k = VUndefined ->
  getProp (fold_left Lodash.assignDefault src dest) k = getProp src k.
Proof.
  intros Hnd Hd.
  destruct (getProp src k) eqn:G;
    try (rewrite <- G; apply defaults_take; [assumption|congruence]).
  apply defaults_skip; [|assumption].
  intros v Hin. rewrite <- (getProp_NoDup _ _ _ Hnd Hin). exact G.
Qed.

Lemma defaultOptions_NoDup : NoDup (map fst defaultOptions).
Proof.
  unfold defaultOptions. cbn [map fst].
  repeat (constructor;
          [cbn [In]; intros H;
           repeat (destruct H as [H|H]; [discriminate H|]); exact H|]).
  constructor.
Qed.

Lemma prepareOptions_unfold (options : object) (spawnFn : value) :
  prepareOptions options spawnFn =
  fold_left Lodash.assignDefault defaultOptions
    (fold_left Lodash.assignDefault options [("spawn", spawnFn)]).
Proof. reflexivity. Qed.

Lemma prepared_spawn (options : object) (spawnFn : value) :
  spawnFn <> VUndefined ->
  getProp (prepareOptions options spawnFn) "spawn" = spawnFn.
Proof.
  intros Hf. rewrite prepareOptions_unfold.
  assert (H1 : getProp (fold_left Lodash.assignDefault options
                          [("spawn", spawnFn)]) "spawn" = spawnFn).
  { rewrite defaults_keep; [reflexivity|exact Hf]. }
  rewrite defaults_keep; congruence.
Qed.

(** What [_.defaults] leaves under a key is what the destination had there
    or a binding of the source. *)
Lemma defaults_origin (src dest : object) (k : string) :
  getProp (fold_left Lodash.assignDefault src dest) k = getProp dest k \/
  In (k, getProp (fold_left Lodash.assignDefault src dest) k) src.
Proof.
  revert dest.
  induction src as [|[k' v'] rest IH]; simpl; intros dest; [now left|].
  destruct (IH (Lodash.assignDefault dest (k', v'))) as [H|H];
    [|right; right; exact H].
  rewrite H.
  destruct (k' =? k) eqn:E.
  - apply String.eqb_eq in E. subst k'.
    destruct (getProp dest k) eqn:G.
    1:{ right. left. unfold Lodash.assignDefault. cbn [fst snd]. rewrite G.
        now rewrite getProp_setProp_same. }
    all: left; rewrite <- G; apply assignDefault_defined; congruence.
  - left. now apply assignDefault_other.
Qed.

Lemma setProp_In (o : object) (k : string) (v : value)
  (kv : string * value) :
  In kv (setProp o k v) -> kv = (k, v) \/ In kv o.
Proof.
  induction o as [|[k' v'] rest IH]; simpl.
  - intros [H|[]]. now left.
  - destruct (k' =? k); simpl.
    + intros [H|H]; [now left|right; now right].
    + intros [H|H]; [right; now left|].
      destruct (IH H) as [H'|H']; [now left|right; now right].
Qed.

(** Options that are iterated by key are not array-like, and with distinct
    keys the two say the same of ordinary options. *)
Lemma keyed_isArrayLike (o : object) :
  keyed o -> Lodash.isArrayLike o = false.
Proof.
  intros [_ Hk]. unfold Lodash.isArrayLike.
  destruct (getProp o "length") eqn:G; try reflexivity.
  apply Hk. apply getProp_In; [exact G|discriminate].
Qed.

Lemma isArrayLike_keyed (o : object) :
  NoDup (map fst o) -> ordinary o -> Lodash.isArrayLike o = false -> keyed o.
Proof.
  intros Hnd Ho Ha. split; [exact Ho|]. intros v Hin.
  rewrite <- (getProp_NoDup _ _ _ Hnd Hin). exact Ha.
Qed.

Lemma ordinary_setProp (o : object) (k : string) (v : value) :
  k <> "__proto__" -> ordinary o -> ordinary (setProp o k v).
Proof.
  intros Hk Ho Hin.
  destruct (setProp_keys _ _ _ _ Hin) as [H|H]; [congruence|contradiction].
Qed.

Lemma ordinary_overwritten (o : object) (path : string) :
  ordinary o -> ordinary (overwritten o path).
Proof.
  intros Ho. unfold overwritten.
  apply ordinary_setProp; [discriminate|].
  apply ordinary_setProp; [discriminate|exact Ho].
Qed.

Lemma keyed_setProp (o : object) (k : string) (v : value) :
  k <> "__proto__" -> Lodash.isLength v = false ->
  keyed o -> keyed (setProp o k v).
Proof.
  intros Hk Hv [Ho Hl]. split; [now apply ordinary_setProp|].
  intros w Hin.
  destruct (setProp_In _ _ _ _ Hin) as [H|H].
  - injection H as _ ->. exact Hv.
  - now apply Hl.
Qed.

Lemma keyed_overwritten (o : object) (path : string) :
  keyed o -> keyed (overwritten o path).
Proof.
  intros Hk. unfold overwritten, pipedStdio.
  apply keyed_setProp; [discriminate|reflexivity|].
  apply keyed_setProp; [discriminate|reflexivity|exact Hk].
Qed.

(** The prepared options of options that are iterated by key are not
    array-like: neither [spawn] nor a default is a [length]. *)
Lemma prepared_keyed (options : object) (spawnFn : value) :
  keyed options ->
  Lodash.isArrayLike (prepareOptions options spawnFn) = false.
Proof.
  intros [_ Hk]. unfold Lodash.isArrayLike. rewrite prepareOptions_unfold.
  destruct (defaults_origin defaultOptions
              (fold_left Lodash.assignDefault options [("spawn", spawnFn)])
              "length") as [H|H].
  - rewrite H.
    destruct (defaults_origin options [("spawn", spawnFn)] "length")
      as [H'|H'].
    + rewrite H'. reflexivity.
    + apply Hk. exact H'.
  - exfalso. unfold defaultOptions in H. cbn [In] in H.
    repeat (destruct H as [H|H]; [discriminate H|]). exact H.
Qed.

(** Under a key other than [spawn] the prepared options hold the caller's
    value when it is defined and the default otherwise. *)
Lemma prepared_lookup (options : object) (spawnFn : value) (k : string) :
  NoDup (map fst options) ->
  ("spawn" =? k) = false ->
  getProp (prepareOptions options spawnFn) k =
  withDefault (getProp options k) (getProp defaultOptions k).
Proof.
  intros Hnd Hk. rewrite prepareOptions_unfold.
  assert (H1 : getProp (fold_left Lodash.assignDefault options
                          [("spawn", spawnFn)]) k = getProp options k).
  { apply defaults_fill; [assumption|]. cbn [getProp]. now rewrite Hk. }
  destruct (getProp options k) eqn:G; cbn [withDefault];
    try (rewrite defaults_keep; congruence).
  apply defaults_fill; [apply defaultOptions_NoDup|assumption].
Qed.

Lemma withDefault_undefined (v : value) : withDefault v VUndefined = v.
Proof. now destruct v. Qed.

(** The prepared options have the [length] of the caller's options: they
    are array-like when the caller's options are. *)
Lemma prepared_length (options : object) (spawnFn : value) :
  NoDup (map fst options) ->
  getProp (prepareOptions options spawnFn) "length" =
  getProp options "length".
Proof.
  intros Hnd. rewrite (prepared_lookup _ _ "length" Hnd eq_refl).
  apply withDefault_undefined.
Qed.

(** No index is [spawn] or the name of a default: the prepared options have
    the elements of the caller's options. *)
Lemma prepared_index (options : object) (spawnFn : value) (index : nat) :
  NoDup (map fst options) ->
  getProp (prepareOptions options spawnFn) (indexKey index) =
  getProp options (indexKey index).
Proof.
  intros Hnd.
  assert (Hs : ("spawn" =? indexKey index) = false).
  { unfold indexKey. destruct (Nat.to_uint index); reflexivity. }
  assert (Hd : getProp defaultOptions (indexKey index) = VUndefined).
  { unfold indexKey. destruct (Nat.to_uint index); reflexivity. }
  rewrite (prepared_lookup _ _ _ Hnd Hs), Hd.
  apply withDefault_undefined.
Qed.

Lemma each_app {X A} (visit : X -> result A) (a b : list X) :
  Lodash.each visit (a ++ b) =
  (la <-? Lodash.each visit a; lb <-? Lodash.each visit b; Ok (la ++ lb)).
Proof.
  induction a as [|x rest IH]; simpl.
  - destruct (Lodash.each visit b); reflexivity.
  - destruct (visit x); simpl; [|reflexivity].
    rewrite IH.
    destruct (Lodash.each visit rest); simpl; [|reflexivity].
    destruct (Lodash.each visit b); reflexivity.
Qed.

Lemma each_ext {X A} (f g : X -> result A) (l : list X) :
  (forall x, f x = g x) -> Lodash.each f l = Lodash.each g l.
Proof.
  intros Hfg. induction l as [|x rest IH]; simpl; [reflexivity|].
  now rewrite Hfg, IH.
Qed.

(** An exception of the iteration is the exception of one of its calls. *)
Lemma each_Throw {X A} (visit : X -> result A) (l : list X) (e : value) :
  Lodash.each visit l = Throw e -> exists x, In x l /\ visit x = Throw e.
Proof.
  induction l as [|x rest IH]; simpl; [discriminate|].
  destruct (visit x) as [a|e'] eqn:V; simpl.
  - destruct (Lodash.each visit rest) as [l'|e'']; simpl; [discriminate|].
    intros [= <-]. destruct (IH eq_refl) as (y & Hy & Hv). eauto.
  - intros [= <-]. eauto.
Qed.

(** When every call that returns gives the empty list, the lists of an
    iteration that returns are all empty. *)
Lemma each_empty {X A} (visit : X -> result (list A)) (l : list X)
  (ls : list (list A)) :
  (forall x a, visit x = Ok a -> a = []) ->
  Lodash.each visit l = Ok ls -> List.concat ls = [].
Proof.
  intros Hv. revert ls.
  induction l as [|x rest IH]; simpl; intros ls.
  - now intros [= <-].
  - destruct (visit x) as [a|e] eqn:V; simpl; [|discriminate].
    destruct (Lodash.each visit rest) as [l'|e]; simpl; [|discriminate].
    intros [= <-]. simpl. now rewrite (Hv _ _ V), (IH l').
Qed.

(** ** The argument builder *)

Lemma optionArgs_spec (val : value) (opt : string) :
  optionArgs val opt =
  if rejected opt val then Throw (newError (rejectionMessage opt))
  else Ok (flagTokens opt val).
Proof.
  unfold optionArgs, rejected, flagTokens, rejectionMessage, Lodash.concat.
  cbn [keyIs].
  destruct (truthy val); simpl; [|reflexivity].
  repeat match goal with
  | |- context [opt =? ?s] =>
      let E := fresh "E" in
      destruct (opt =? s) eqn:E;
      [apply String.eqb_eq in E; subst opt; reflexivity|]
  end.
  destruct (unsupported opt); reflexivity.
Qed.

(** On an index, a number, the iteratee has no case and no recognized
    name: a truthy element is rejected. *)
Lemma optionArgs_index (val : value) (index : nat) :
  optionArgs val (KIndex index) =
  if truthy val
  then Throw (newError (unrecognizedMessage (KIndex index)))
  else Ok [].
Proof. unfold optionArgs. destruct (truthy val); reflexivity. Qed.

Lemma optionArgs_falsy (val : value) (opt : key) :
  truthy val = false -> optionArgs val opt = Ok [].
Proof. intros H. unfold optionArgs. now rewrite H. Qed.

Lemma optionArgs_Throw (val : value) (opt : key) (e : value) :
  optionArgs val opt = Throw e -> truthy val = true.
Proof.
  destruct (truthy val) eqn:T; [reflexivity|].
  rewrite (optionArgs_falsy _ _ T). discriminate.
Qed.

Lemma each_keys_spec (options : object) :
  Lodash.each (fun kv => optionArgs (snd kv) (KName (fst kv))) options =
  match firstRejected options with
  | Some k => Throw (newError (rejectionMessage k))
  | None => Ok (List.map (fun kv => flagTokens (fst kv) (snd kv)) options)
  end.
Proof.
  induction options as [|[k v] rest IH]; simpl; [reflexivity|].
  rewrite optionArgs_spec.
  destruct (rejected k v); simpl; [reflexivity|].
  rewrite IH. destruct (firstRejected rest); reflexivity.
Qed.

(** The build of an object that is iterated by key. *)
Lemma compilerArgsFromOptions_spec (options : object) :
  Lodash.isArrayLike options = false ->
  compilerArgsFromOptions options =
  match firstRejected options with
  | Some k => Throw (newError (rejectionMessage k))
  | None => Ok (flagsOf options)
  end.
Proof.
  intros Hk.
  unfold compilerArgsFromOptions, Lodash.map, flagsOf, Lodash.flatten.
  rewrite Hk, each_keys_spec.
  destruct (firstRejected options); [reflexivity|].
  simpl. now rewrite flat_map_concat_map.
Qed.

(** The build of an array-like object emits no token. *)
Lemma compilerArgsFromOptions_arrayLike
  (options : object) (flags : list value) :
  Lodash.isArrayLike options = true ->
  compilerArgsFromOptions options = Ok flags -> flags = [].
Proof.
  intros Ha. unfold compilerArgsFromOptions, Lodash.map, Lodash.flatten.
  rewrite Ha.
  destruct (Lodash.lengthOf options <=? Lodash.MAX_ARRAY_LENGTH)%Z;
    [|discriminate].
  destruct (Lodash.each _ _) as [ls|e] eqn:E; simpl; [|discriminate].
  intros [= <-]. apply (each_empty _ _ _) with (2 := E).
  intros index a H. rewrite optionArgs_index in H.
  destruct (truthy _); [discriminate|]. now injection H as <-.
Qed.

Lemma valid_firstRejected (options : object) :
  validConfiguration options -> firstRejected options = None.
Proof.
  induction options as [|[k v] rest IH]; simpl; intros Hv; [reflexivity|].
  rewrite (Hv k v) by now left.
  apply IH. intros k' v' Hin. apply Hv. now right.
Qed.



Lemma flagsOf_app (a b : object) : flagsOf (a ++ b) = flagsOf a ++ flagsOf b.
Proof. apply flat_map_app. Qed.

Lemma firstRejected_app (a b : object) :
  firstRejected (a ++ b) =
  match firstRejected a with
  | Some k => Some k
  | None => firstRejected b
  end.
Proof.
  induction a as [|[k v] rest IH]; simpl; [reflexivity|].
  destruct (rejected k v); auto.
Qed.



(** Whatever list [prepareProcessArgs] returns is ["make"], the normalized
    sources, then what [compilerArgsFromOptions] built. *)
Lemma prepareProcessArgs_Ok
  (sources : value) (o : object) (args : list value) :
  prepareProcessArgs sources o = Ok args ->
  exists flags,
    compilerArgsFromOptions o = Ok flags /\
    args = VStr "make" :: normalizedSources sources ++ flags.
Proof.
  unfold prepareProcessArgs.
  destruct sources; simpl; try discriminate;
    destruct (compilerArgsFromOptions o) as [flags|e]; simpl;
    try discriminate; intros [= <-]; eauto.
Qed.

(** C1: for a valid sources argument, whatever configuration the builder
    accepts, the argument list is ["make"], then the normalized sources in
    their order, then the flag tokens; a configuration that is iterated by
    key and has no rejected key is accepted, and its flag tokens are those
    of its keys, in key order; an array-like configuration has no flag
    token, and its argument list ends with the sources. *)
Theorem prepareProcessArgs_make_sources_flags
  (sources : value) (options : object) :
  validSources sources = true ->
  (forall flags,
     compilerArgsFromOptions options = Ok flags ->
     prepareProcessArgs sources options =
     Ok (VStr "make" :: normalizedSources sources ++ flags)) /\
  (Lodash.isArrayLike options = false ->
   validConfiguration options ->
   prepareProcessArgs sources options =
   Ok (VStr "make" :: normalizedSources sources ++ flagsOf options)) /\
  (Lodash.isArrayLike options = true ->
   forall args,
     prepareProcessArgs sources options = Ok args ->
     args = VStr "make" :: normalizedSources sources).
Proof.
  intros Hs.
  assert (H : forall flags,
    compilerArgsFromOptions options = Ok flags ->
    prepareProcessArgs sources options =
    Ok (VStr "make" :: normalizedSources sources ++ flags)).
  { intros flags Hf. unfold prepareProcessArgs. rewrite Hf.
    destruct sources; try discriminate; reflexivity. }
  split; [exact H|]. split.
  - intros Hk Hv. apply H.
    now rewrite (compilerArgsFromOptions_spec _ Hk),
      (valid_firstRejected _ Hv).
  - intros Ha args Hargs.
    apply prepareProcessArgs_Ok in Hargs as (flags & Hf & ->).
    rewrite (compilerArgsFromOptions_arrayLike _ _ Ha Hf).
    now rewrite app_nil_r.
Qed.

(** C2, as the code has it: for a configuration that is iterated by key,
    the block ["+RTS"; tokens; "-RTS"] stands where the [runtimeOptions] key
    is enumerated, after the tokens of the keys before it and before the
    tokens of the keys after it. *)
Theorem runtimeOptions_block_in_place
  (sources : value) (before after : object) (tokens : list value) :
  validSources sources = true ->
  Lodash.isArrayLike (before ++ ("runtimeOptions", VArr tokens) :: after)
  = false ->
  validConfiguration (before ++ ("runtimeOptions", VArr tokens) :: after) ->
  prepareProcessArgs sources
    (before ++ ("runtimeOptions", VArr tokens) :: after) =
  Ok (VStr "make" :: normalizedSources sources
        ++ flagsOf before
        ++ [VStr "+RTS"] ++ tokens ++ [VStr "-RTS"]
        ++ flagsOf after).
Proof.
  intros Hs Hk Hv. unfold prepareProcessArgs.
  rewrite (compilerArgsFromOptions_spec _ Hk), (valid_firstRejected _ Hv).
  rewrite flagsOf_app. unfold flagsOf at 2. simpl flat_map.
  rewrite <- !app_assoc.
  destruct sources; try discriminate; reflexivity.
Qed.


(** C9: a falsy value raises no error and gives no token, under whatever
    key the iteratee receives it; in a configuration that is iterated by
    key the build gives what it gives without the key, and it succeeds when
    no other key is rejected; and whatever the configuration, an error of
    the build is the error of the iteratee on a truthy value (or the
    RangeError of an array-like object whose length is beyond an array). *)
Theorem falsy_key_ignored
  (before after : object) (k : string) (v : value) :
  truthy v = false ->
  (forall opt : key, optionArgs v opt = Ok []) /\
  (Lodash.isArrayLike (before ++ (k, v) :: after) = false ->
   Lodash.isArrayLike (before ++ after) = false ->
   compilerArgsFromOptions (before ++ (k, v) :: after) =
   compilerArgsFromOptions (before ++ after)) /\
  (Lodash.isArrayLike (before ++ (k, v) :: after) = false ->
   validConfiguration (before ++ after) ->
   compilerArgsFromOptions (before ++ (k, v) :: after) =
   Ok (flagsOf (before ++ after))) /\
  (forall options e,
     compilerArgsFromOptions options = Throw e ->
     e = Lodash.invalidArrayLength \/
     exists val opt, truthy val = true /\ optionArgs val opt = Throw e).
Proof.
  intros Hf.
  assert (Hsame :
    firstRejected (before ++ (k, v) :: after) =
      firstRejected (before ++ after) /\
    flagsOf (before ++ (k, v) :: after) = flagsOf (before ++ after)).
  { rewrite !firstRejected_app, !flagsOf_app. simpl.
    unfold rejected, flagTokens. now rewrite Hf. }
  destruct Hsame as [Hr Ht].
  split; [intros opt; now apply optionArgs_falsy|].
  split; [|split].
  - intros H1 H2. now rewrite !compilerArgsFromOptions_spec, Hr, Ht.
  - intros H1 Hv.
    now rewrite (compilerArgsFromOptions_spec _ H1), Hr, Ht,
      (valid_firstRejected _ Hv).
  - intros options e.
    unfold compilerArgsFromOptions, Lodash.map.
    destruct (Lodash.isArrayLike options).
    + destruct (Lodash.lengthOf options <=? Lodash.MAX_ARRAY_LENGTH)%Z.
      * destruct (Lodash.each _ _) as [ls|e'] eqn:E; simpl; [discriminate|].
        intros [= <-]. destruct (each_Throw _ _ _ E) as (i & _ & Hi).
        right. eexists _, _. split; [|exact Hi].
        exact (optionArgs_Throw _ _ _ Hi).
      * simpl. intros [= <-]. now left.
    + destruct (Lodash.each _ _) as [ls|e'] eqn:E; simpl; [discriminate|].
      intros [= <-]. destruct (each_Throw _ _ _ E) as (kv & _ & Hi).
      right. eexists _, _. split; [|exact Hi].
      exact (optionArgs_Throw _ _ _ Hi).
Qed.

(** C6: on every error value other than [null] the classifier returns, and
    what it returns is the classified text: by the [code] string when there
    is one, else the stringified [message] string, else the generic text. *)
Theorem compilerErrorToString_classified (err : value) (pathToElm : string) :
  err <> VNull ->
  compilerErrorToString err pathToElm = Ok (classified err pathToElm).
Proof.
  intros Hn. unfold compilerErrorToString, classified, objectWithString.
  destruct err; try congruence; try reflexivity.
  unfold stringField, readProp, rbind.
  change (typeof (VObj props) =? "object") with true. cbv iota.
  destruct (getProp props "code") as [| | | | |code| | |];
    try (destruct (getProp props "message"); reflexivity).
  destruct (code =? "ENOENT"); [reflexivity|].
  destruct (code =? "EACCES"); reflexivity.
Qed.

(** ** The invoker *)

Ltac unfold_monad :=
  unfold bind, ret, throw, lift, tryCatch, attempt, emit, readOptions,
    writeOption, call.


(** A truthy property of the caller's options is a property of the
    prepared options, unless it is [spawn]. *)
Lemma prepareOptions_keeps (options : object) (spawnFn : value) (k : string) :
  ("spawn" =? k) = false ->
  truthy (getProp options k) = true ->
  getProp (prepareOptions options spawnFn) k = getProp options k.
Proof.
  intros Hk Ht. apply truthy_defined in Ht.
  change (prepareOptions options spawnFn) with
    (fold_left Lodash.assignDefault defaultOptions
       (fold_left Lodash.assignDefault options [("spawn", spawnFn)])).
  assert (H1 : getProp (fold_left Lodash.assignDefault options
                          [("spawn", spawnFn)]) k = getProp options k).
  { apply defaults_take; [|assumption]. cbn [getProp]. now rewrite Hk. }
  rewrite defaults_keep; congruence.
Qed.




(** When the [spawn] field is not a function the invoker throws its
    message, a string, before it builds the arguments or spawns. *)
Lemma runCompiler_not_callable
  (sources : value) (options : object) (po : ProcessedOptions) (st : store) :
  (typeof (getProp options "spawn") =? "function") = false ->
  runCompiler sources options po st =
  (Throw (VStr (spawnTypeMessage options)), st).
Proof.
  intros Hf. unfold runCompiler. now rewrite Hf.
Qed.




(** ** The capture functions *)

Lemma append_nil_r (s : string) : (s ++ EmptyString)%string = s.
Proof. induction s as [|c s IH]; simpl; congruence. Qed.

Lemma append_assoc (a b c : string) :
  ((a ++ b) ++ c)%string = (a ++ (b ++ c))%string.
Proof. induction a as [|x a IH]; simpl; congruence. Qed.

Lemma fold_append (chunks : list chunk) (acc : string) :
  fold_left (fun output c => (output ++ chunkText c)%string) chunks acc =
  (acc ++ concatenation chunks)%string.
Proof.
  revert acc.
  induction chunks as [|c rest IH]; simpl; intros acc.
  - now rewrite append_nil_r.
  - now rewrite IH, append_assoc.
Qed.

(** The [output] variable holds the chunks of both streams, one after the
    other in arrival order. *)
Lemma collectOutput_concatenation (compiler : ChildProcess) :
  collectOutput compiler = concatenation (dataEvents compiler).
Proof. unfold collectOutput. now rewrite fold_append. Qed.

Lemma store_eta (st : store) : mkStore (callerOptions st) (trace st) = st.
Proof. now destruct st. Qed.

(** What [compile] and [compileSync] leave in the store: the caller's
    object untouched, and at most a log line and one spawn call, made with
    the processed options and the arguments built from the prepared
    options. *)
Lemma compileUsing_events (spawnFn sources : value) (o : object) (st : store) :
  exists evs,
    snd (compileUsing spawnFn sources o st) =
    mkStore (callerOptions st) (trace st ++ evs) /\
    forall fn p args opts,
      In (ESpawn fn p args opts) evs ->
      exists po,
        processOptions o = Ok po /\
        p = pathToElm po /\ opts = processOpts po /\
        fn = getProp (prepareOptions o spawnFn) "spawn" /\
        prepareProcessArgs sources (prepareOptions o spawnFn) = Ok args.
Proof.
  assert (Hnil : forall r : result ChildProcess,
    exists evs,
      snd (r, st) = mkStore (callerOptions st) (trace st ++ evs) /\
      forall fn p args opts,
        In (ESpawn fn p args opts) evs ->
        exists po,
          processOptions o = Ok po /\
          p = pathToElm po /\ opts = processOpts po /\
          fn = getProp (prepareOptions o spawnFn) "spawn" /\
          prepareProcessArgs sources (prepareOptions o spawnFn) = Ok args).
  { intros r. exists []. simpl. rewrite app_nil_r, store_eta.
    split; [reflexivity|]. intros ? ? ? ? []. }
  unfold compileUsing. unfold bind at 1, lift at 1.
  destruct (processOptions o) as [po|e] eqn:Hp; [|apply Hnil].
  unfold tryCatch, runCompiler.
  destruct (negb (typeof (getProp (prepareOptions o spawnFn) "spawn")
                  =? "function")).
  { unfold_monad. destruct (compilerErrorToString _ _); apply Hnil. }
  unfold bind at 1, lift at 1.
  destruct (prepareProcessArgs sources (prepareOptions o spawnFn))
    as [args|e] eqn:Ha.
  2:{ unfold_monad. destruct (compilerErrorToString _ _); apply Hnil. }
  set (fn := getProp (prepareOptions o spawnFn) "spawn").
  set (logged := ELog (VStr "Running" :: VStr (pathToElm po) :: args)).
  set (spawned := ESpawn fn (pathToElm po) args (processOpts po)).
  assert (Hev : forall evs,
    (forall e, In e evs -> e = logged \/ e = spawned) ->
    forall fn' p args' opts,
      In (ESpawn fn' p args' opts) evs ->
      exists po',
        Ok po = Ok po' /\
        p = pathToElm po' /\ opts = processOpts po' /\
        fn' = fn /\ Ok args = Ok args').
  { intros evs Hall fn' p args' opts Hin.
    destruct (Hall _ Hin) as [H|H]; [discriminate|].
    injection H as -> -> -> ->. exists po. auto. }
  destruct (truthy (getProp (prepareOptions o spawnFn) "verbose")).
  - exists [logged; spawned]. split.
    + unfold_monad. simpl.
      destruct (callFunction fn (pathToElm po) args (processOpts po));
        [|destruct (compilerErrorToString _ _)];
        simpl; now rewrite <- app_assoc.
    + apply Hev. intros e [H|[H|[]]]; [left|right]; symmetry; exact H.
  - exists [spawned]. split.
    + unfold_monad. simpl.
      destruct (callFunction fn (pathToElm po) args (processOpts po));
        [|destruct (compilerErrorToString _ _)];
        reflexivity.
    + apply Hev. intros e [H|[]]. right. symmetry. exact H.
Qed.

Lemma compileToString_run
  (sources : value) (st : store) (suffix path : string) :
  getSuffix (getProp (callerOptions st) "output") ".js" = Ok suffix ->
  temp_open suffix = Ok path ->
  compileToString sources st =
  let o := overwritten (callerOptions st) path in
  let (started, st') := compile sources o (mkStore o (trace st)) in
  match started with
  | Throw compileError => (Ok (Rejected compileError), st')
  | Ok compiler =>
      match exitCode compiler with
      | Some 0%Z =>
          (Ok match readFile path with
              | Throw err => Rejected err
              | Ok data => Resolved data
              end,
           if truthy (getProp o "verbose")
           then mkStore (callerOptions st')
                  (trace st' ++ [ELog [VStr (collectOutput compiler)]])
           else st')
      | _ => (Ok (Rejected (compilationFailed (collectOutput compiler))), st')
      end
  end.
Proof.
  intros Hs Ht. unfold compileToString.
  unfold bind at 1, readOptions at 1. unfold bind at 1, lift at 1.
  rewrite Hs, Ht. unfold_monad. cbn [callerOptions trace].
  unfold overwritten, pipedStdio.
  destruct (compile sources _ _) as [[compiler|e] st']; [|reflexivity].
  destruct (exitCode compiler) as [[|p|p]|]; try reflexivity.
  destruct (truthy (getProp _ "verbose"));
    destruct (readFile path); reflexivity.
Qed.

Lemma compileToStringSync_run
  (sources : value) (st : store) (suffix file : string) :
  getSuffix (getProp (callerOptions st) "output") ".js" = Ok suffix ->
  temp_open suffix = Ok file ->
  compileToStringSync sources st =
  let o := setProp (callerOptions st) "output" (VStr file) in
  let (finished, st') := compileSync sources o (mkStore o (trace st)) in
  match finished with
  | Throw e => (Throw e, st')
  | Ok _ => (readFile file, st')
  end.
Proof.
  intros Hs Ht. unfold compileToStringSync.
  unfold bind at 1, readOptions at 1. unfold bind at 1, lift at 1.
  rewrite Hs. unfold bind at 1, lift at 1. rewrite Ht.
  unfold_monad. cbn [callerOptions trace].
  destruct (compileSync sources _ _) as [[proc|e] st']; reflexivity.
Qed.

(** C4: once the compiler has been started, a close with a code other than
    zero rejects the promise with the compilation-failed error, whose text
    ends with the chunks of stdout and stderr in arrival order; a close
    with code zero resolves it with the text of the temporary file. *)
Theorem compileToString_settles
  (sources : value) (st st' : store) (suffix path : string)
  (compiler : ChildProcess) :
  getSuffix (getProp (callerOptions st) "output") ".js" = Ok suffix ->
  temp_open suffix = Ok path ->
  compile sources (overwritten (callerOptions st) path)
    (mkStore (overwritten (callerOptions st) path) (trace st))
  = (Ok compiler, st') ->
  (exitCode compiler <> Some 0%Z ->
   fst (compileToString sources st) =
   Ok (Rejected
         (newError ("Compilation failed" ++ newline
                    ++ concatenation (dataEvents compiler))%string))) /\
  (exitCode compiler = Some 0%Z ->
   forall data, readFile path = Ok data ->
   fst (compileToString sources st) = Ok (Resolved data)).
Proof.
  intros Hs Ht Hc.
  rewrite (compileToString_run _ _ _ _ Hs Ht). cbv zeta. rewrite Hc.
  rewrite collectOutput_concatenation. split.
  - intros Hne. destruct (exitCode compiler) as [[|p|p]|];
      try reflexivity. congruence.
  - intros -> data ->. reflexivity.
Qed.

(** C5: what [compileToStringSync] does with a compiler that has run: it
    returns what reading the temporary file gives, whatever the exit code
    of the process. *)
Theorem compileToStringSync_ignores_exit_code
  (sources : value) (st st' : store) (suffix file : string)
  (finished : ChildProcess) :
  getSuffix (getProp (callerOptions st) "output") ".js" = Ok suffix ->
  temp_open suffix = Ok file ->
  compileSync sources (setProp (callerOptions st) "output" (VStr file))
    (mkStore (setProp (callerOptions st) "output" (VStr file)) (trace st))
  = (Ok finished, st') ->
  fst (compileToStringSync sources st) = readFile file.
Proof.
  intros Hs Ht Hc.
  rewrite (compileToStringSync_run _ _ _ _ Hs Ht). cbv zeta.
  now rewrite Hc.
Qed.

Lemma flagsOf_output (o : object) (path : string) :
  In ("output", VStr path) o -> path <> EmptyString ->
  exists l1 l2, flagsOf o = l1 ++ VStr "--output" :: VStr path :: l2.
Proof.
  intros Hin Hp.
  destruct (in_split _ _ Hin) as (a & b & ->).
  exists (flagsOf a), (flagsOf b).
  rewrite flagsOf_app. f_equal.
  unfold flagsOf at 1. cbn [flat_map fst snd].
  unfold flagTokens. cbn [truthy].
  apply String.eqb_neq in Hp. now rewrite Hp.
Qed.

(** The spawn calls of [compile] and [compileSync] on [o] are calls on the
    prepared [o]. *)
Lemma compileUsing_prepared
  (spawnFn sources : value) (o : object) (st : store) :
  callerOptions (snd (compileUsing spawnFn sources o st)) = callerOptions st /\
  spawnsPrepared (trace st) (trace (snd (compileUsing spawnFn sources o st)))
    spawnFn sources o.
Proof.
  destruct (compileUsing_events spawnFn sources o st) as (evs & -> & Hev).
  split; [reflexivity|].
  intros fn p args opts Hin. cbn [trace] in Hin.
  apply in_app_or in Hin as [Hin|Hin]; [now left|right].
  destruct (Hev _ _ _ _ Hin) as (po & Hp & Hpath & Hopts & Hfn & Hargs).
  exists po. repeat split; try assumption. intros _. assumption.
Qed.

(** The spawn calls of a compilation whose options are iterated by key and
    name an output path carry that path. *)
Lemma compileUsing_output
  (spawnFn sources : value) (o : object) (st : store) (path : string) :
  keyed o ->
  getProp o "output" = VStr path -> path <> EmptyString ->
  spawnsWithOutput (trace st)
    (trace (snd (compileUsing spawnFn sources o st))) path.
Proof.
  intros Hk Hg Hp.
  destruct (compileUsing_events spawnFn sources o st) as (evs & -> & Hev).
  intros fn p args opts Hin. cbn [trace] in Hin.
  apply in_app_or in Hin as [Hin|Hin]; [now left|right].
  destruct (Hev _ _ _ _ Hin) as (po & _ & _ & _ & _ & Hargs).
  apply prepareProcessArgs_Ok in Hargs as (flags & Hflags & ->).
  rewrite (compilerArgsFromOptions_spec _ (prepared_keyed _ spawnFn Hk))
    in Hflags.
  destruct (firstRejected (prepareOptions o spawnFn)); [discriminate|].
  injection Hflags as <-.
  destruct (flagsOf_output (prepareOptions o spawnFn) path) as (l1 & l2 & Hf);
    [|assumption|].
  - assert (Ht : truthy (getProp o "output") = true).
    { rewrite Hg. cbn [truthy]. apply String.eqb_neq in Hp. now rewrite Hp. }
    apply getProp_In; [|discriminate].
    rewrite prepareOptions_keeps; auto.
  - exists (VStr "make" :: normalizedSources sources ++ l1), l2.
    rewrite Hf. cbn [app]. now rewrite <- app_assoc.
Qed.

Lemma spawnsWithOutput_log
  (before after : list event) (path : string) (parts : list value) :
  spawnsWithOutput before after path ->
  spawnsWithOutput before (after ++ [ELog parts]) path.
Proof.
  intros H fn p args opts Hin.
  apply in_app_or in Hin as [Hin|[Hin|[]]]; [auto|discriminate].
Qed.

Lemma spawnsPrepared_log
  (before after : list event) (spawnFn sources : value) (o : object)
  (parts : list value) :
  spawnsPrepared before after spawnFn sources o ->
  spawnsPrepared before (after ++ [ELog parts]) spawnFn sources o.
Proof.
  intros H fn p args opts Hin.
  apply in_app_or in Hin as [Hin|[Hin|[]]]; [auto|discriminate].
Qed.

Lemma overwritten_output (o : object) (path : string) :
  getProp (overwritten o path) "output" = VStr path.
Proof.
  unfold overwritten.
  rewrite getProp_setProp_other by reflexivity.
  apply getProp_setProp_same.
Qed.

(** C10: once the temporary file is there, the caller's object holds the
    path in [output] and the piped setting in [processOpts] when the promise
    of [compileToString] has settled, whatever the outcome; every spawn
    call of the run is the call of [compile] on the object with the two
    fields already overwritten (the compiler path and the spawn options are
    those of the overwritten object, and so are the arguments when the
    options are ordinary), and when the caller's options are iterated by
    key it carries the path after ["--output"].  [compileToStringSync]
    spawns on the object with [output] overwritten, and leaves the path in
    [output], whether it returns or throws. *)
Theorem capture_overwrites_caller_options
  (sources : value) (st : store) (suffix path : string) :
  getSuffix (getProp (callerOptions st) "output") ".js" = Ok suffix ->
  temp_open suffix = Ok path ->
  callerOptions (snd (compileToString sources st)) =
    overwritten (callerOptions st) path /\
  getProp (callerOptions (snd (compileToString sources st))) "output" =
    VStr path /\
  getProp (callerOptions (snd (compileToString sources st))) "processOpts" =
    pipedStdio /\
  spawnsPrepared (trace st) (trace (snd (compileToString sources st)))
    spawn sources (overwritten (callerOptions st) path) /\
  (keyed (callerOptions st) -> path <> EmptyString ->
   spawnsWithOutput (trace st) (trace (snd (compileToString sources st)))
     path) /\
  callerOptions (snd (compileToStringSync sources st)) =
    setProp (callerOptions st) "output" (VStr path) /\
  getProp (callerOptions (snd (compileToStringSync sources st))) "output" =
    VStr path /\
  spawnsPrepared (trace st) (trace (snd (compileToStringSync sources st)))
    spawn_sync sources (setProp (callerOptions st) "output" (VStr path)).
Proof.
  intros Hs Ht.
  assert (Hasync :
    callerOptions (snd (compileToString sources st)) =
      overwritten (callerOptions st) path /\
    spawnsPrepared (trace st) (trace (snd (compileToString sources st)))
      spawn sources (overwritten (callerOptions st) path) /\
    (keyed (callerOptions st) -> path <> EmptyString ->
     spawnsWithOutput (trace st) (trace (snd (compileToString sources st)))
       path)).
  { rewrite (compileToString_run _ _ _ _ Hs Ht). cbv zeta.
    set (o := overwritten (callerOptions st) path).
    pose proof (compileUsing_prepared spawn sources o (mkStore o (trace st)))
      as [Hco Hprep].
    pose proof (fun Hk : keyed (callerOptions st) =>
                  compileUsing_output spawn sources o (mkStore o (trace st))
                    path (keyed_overwritten _ path Hk)
                    (overwritten_output _ _)) as Hout.
    fold (compile sources o (mkStore o (trace st))) in Hco, Hprep, Hout.
    destruct (compile sources o (mkStore o (trace st))) as [started st'].
    cbn [snd callerOptions trace] in Hco, Hprep, Hout.
    destruct started as [compiler|e]; cbn [snd];
      [|split; [assumption|split; [assumption|intros Hk Hp; now apply Hout]]].
    destruct (exitCode compiler) as [[|p|p]|]; cbn [snd];
      try (split; [assumption|
                   split; [assumption|intros Hk Hp; now apply Hout]]).
    destruct (truthy (getProp o "verbose")); cbn [snd callerOptions trace];
      (split; [assumption|split; [|intros Hk Hp]]).
    - now apply spawnsPrepared_log.
    - apply spawnsWithOutput_log. now apply Hout.
    - assumption.
    - now apply Hout. }
  assert (Hsync :
    callerOptions (snd (compileToStringSync sources st)) =
      setProp (callerOptions st) "output" (VStr path) /\
    spawnsPrepared (trace st) (trace (snd (compileToStringSync sources st)))
      spawn_sync sources (setProp (callerOptions st) "output" (VStr path))).
  { rewrite (compileToStringSync_run _ _ _ _ Hs Ht). cbv zeta.
    set (o := setProp (callerOptions st) "output" (VStr path)).
    pose proof (compileUsing_prepared spawn_sync sources o
                  (mkStore o (trace st))) as [Hco Hprep].
    fold (compileSync sources o (mkStore o (trace st))) in Hco, Hprep.
    destruct (compileSync sources o (mkStore o (trace st)))
      as [finished st'].
    cbn [snd callerOptions trace] in Hco, Hprep.
    destruct finished; cbn [snd]; split; assumption. }
  destruct Hasync as (Ha & Hp & Ho).
  destruct Hsync as (Hb & Hq).
  rewrite Ha, Hb.
  split; [reflexivity|].
  split; [apply overwritten_output|].
  split; [apply getProp_setProp_same|].
  split; [exact Hp|].
  split; [exact Ho|].
  split; [reflexivity|].
  split; [apply getProp_setProp_same|exact Hq].
Qed.

(** ** Beyond the claims: [prepareOptions] *)

(** X1: the function [compile] or [compileSync] binds always wins: a
    [spawn] property of the caller's options is ignored, and so is the
    default. *)
Theorem prepareOptions_binds_spawn (options : object) (spawnFn : value) :
  spawnFn <> VUndefined ->
  getProp (prepareOptions options spawnFn) "spawn" = spawnFn /\
  (typeof spawnFn = "function" ->
   (typeof (getProp (prepareOptions options spawnFn) "spawn") =? "function")
   = true).
Proof.
  intros Hf.
  assert (H : getProp (prepareOptions options spawnFn) "spawn" = spawnFn).
  { rewrite prepareOptions_unfold.
    assert (H1 : getProp (fold_left Lodash.assignDefault options
                            [("spawn", spawnFn)]) "spawn" = spawnFn).
    { rewrite defaults_keep; [reflexivity|exact Hf]. }
    rewrite defaults_keep; congruence. }
  split; [exact H|].
  intros Ht. rewrite H, Ht. reflexivity.
Qed.


(** ** Beyond the claims: the defaults and the command line *)

Lemma quiet_entry (k : string) (v : value) :
  loudEntry (k, v) = false -> flagTokens k v = [] /\ rejected k v = false.
Proof.
  unfold loudEntry, flagTokens, rejected. cbn [fst snd].
  destruct (truthy v); [|auto].
  destruct (k =? "spawn") eqn:E; [|discriminate].
  apply String.eqb_eq in E. subst k. intros _. split; reflexivity.
Qed.

Lemma flagsOf_loud (o : object) : flagsOf (loud o) = flagsOf o.
Proof.
  unfold flagsOf, loud.
  induction o as [|[k v] rest IH]; [reflexivity|].
  cbn [filter flat_map fst snd].
  destruct (loudEntry (k, v)) eqn:L.
  - cbn [flat_map fst snd]. now rewrite IH.
  - destruct (quiet_entry _ _ L) as [-> _]. exact IH.
Qed.

Lemma firstRejected_loud (o : object) :
  firstRejected (loud o) = firstRejected o.
Proof.
  unfold loud.
  induction o as [|[k v] rest IH]; [reflexivity|].
  cbn [filter firstRejected].
  destruct (loudEntry (k, v)) eqn:L.
  - cbn [firstRejected]. now rewrite IH.
  - destruct (quiet_entry _ _ L) as [_ ->]. exact IH.
Qed.

Lemma loud_setProp_quiet (dest : object) (k : string) (v : value) :
  loudEntry (k, getProp dest k) = false ->
  loudEntry (k, v) = false ->
  loud (setProp dest k v) = loud dest.
Proof.
  intros Hold Hnew. unfold loud.
  induction dest as [|[k' v'] rest IH]; cbn [setProp getProp filter] in *.
  - now rewrite Hnew.
  - destruct (k' =? k) eqn:E.
    + apply String.eqb_eq in E. subst k'.
      cbn [filter]. now rewrite Hold, Hnew.
    + cbn [filter]. now rewrite IH.
Qed.

Lemma loud_spawn (v : value) : loudEntry ("spawn", v) = false.
Proof. unfold loudEntry. cbn [fst snd]. apply andb_false_r. Qed.

(** Caller's options whose keys are distinct go into the destination one
    after the other, in their order. *)
Lemma defaults_loud_new (opts dest : object) :
  NoDup (map fst opts) ->
  (forall k, In k (map fst opts) -> k <> "spawn" -> ~ In k (map fst dest)) ->
  loud (fold_left Lodash.assignDefault opts dest) = loud dest ++ loud opts.
Proof.
  revert dest.
  induction opts as [|[k v] rest IH]; cbn [fold_left map fst];
    intros dest Hnd Hnew.
  - unfold loud at 3. cbn [filter]. now rewrite app_nil_r.
  - inversion Hnd as [|? ? Hout Hnd']; subst.
    rewrite IH; [|assumption|].
    + destruct (k =? "spawn") eqn:E.
      * apply String.eqb_eq in E. subst k.
        assert (Hd : loud (Lodash.assignDefault dest ("spawn", v)) =
                     loud dest).
        { unfold Lodash.assignDefault. cbn [fst snd].
          destruct (getProp dest "spawn");
            auto using loud_setProp_quiet, loud_spawn. }
        rewrite Hd. unfold loud at 4. cbn [filter].
        now rewrite loud_spawn.
      * assert (Hk : ~ In k (map fst dest)).
        { apply Hnew; [now left|]. intros ->. discriminate. }
        unfold Lodash.assignDefault. cbn [fst snd].
        rewrite (getProp_absent _ _ Hk), (setProp_absent _ _ _ Hk).
        unfold loud. rewrite filter_app, <- app_assoc. cbn [filter].
        destruct (loudEntry (k, v)); reflexivity.
    + intros k0 Hin Hs Hd.
      destruct (assignDefault_keys _ _ _ Hd) as [Heq|Hd'].
      * cbn [fst] in Heq. subst k0. contradiction.
      * apply (Hnew k0); auto. now right.
Qed.

(** A source whose entries are all quiet changes nothing that is loud. *)
Lemma defaults_loud_quiet (src dest : object) :
  Forall (fun kv => loudEntry kv = false) src ->
  loud (fold_left Lodash.assignDefault src dest) = loud dest.
Proof.
  revert dest.
  induction src as [|[k d] rest IH]; cbn [fold_left]; intros dest Hq;
    [reflexivity|].
  inversion Hq as [|? ? Hd Hq']; subst.
  rewrite IH by assumption.
  unfold Lodash.assignDefault. cbn [fst snd].
  destruct (getProp dest k) eqn:G; try reflexivity.
  apply loud_setProp_quiet; [|assumption].
  rewrite G. reflexivity.
Qed.

Lemma defaultOptions_quiet :
  Forall (fun kv => loudEntry kv = false) defaultOptions.
Proof.
  unfold defaultOptions.
  constructor; [apply loud_spawn|].
  repeat (constructor; [reflexivity|]). constructor.
Qed.

Lemma prepareOptions_loud (options : object) (spawnFn : value) :
  NoDup (map fst options) ->
  loud (prepareOptions options spawnFn) = loud options.
Proof.
  intros Hnd. rewrite prepareOptions_unfold.
  rewrite (defaults_loud_quiet _ _ defaultOptions_quiet).
  rewrite defaults_loud_new; [|assumption|].
  - unfold loud at 1. cbn [filter]. now rewrite loud_spawn.
  - intros k _ Hs Hin. cbn [map fst In] in Hin.
    destruct Hin as [H|[]]. congruence.
Qed.

Lemma prepared_flags (options : object) (spawnFn : value) :
  NoDup (map fst options) ->
  flagsOf (prepareOptions options spawnFn) = flagsOf options /\
  firstRejected (prepareOptions options spawnFn) = firstRejected options.
Proof.
  intros Hnd. split.
  - now rewrite <- flagsOf_loud, prepareOptions_loud, flagsOf_loud.
  - now rewrite <- firstRejected_loud, prepareOptions_loud,
      firstRejected_loud.
Qed.

Lemma prepared_arrayLike (options : object) (spawnFn : value) :
  NoDup (map fst options) ->
  Lodash.isArrayLike (prepareOptions options spawnFn) =
  Lodash.isArrayLike options /\
  Lodash.lengthOf (prepareOptions options spawnFn) = Lodash.lengthOf options.
Proof.
  intros Hnd. unfold Lodash.isArrayLike, Lodash.lengthOf.
  now rewrite (prepared_length _ _ Hnd).
Qed.

(** X3: for ordinary options with distinct keys, the defaults and
    the bound function add nothing to the command line and hide nothing of
    it: the arguments [runCompiler] builds from the prepared options are
    those of the caller's options, errors included, whether lodash iterates
    the options by key or, array-like, by index. *)
Theorem prepareOptions_same_arguments
  (sources : value) (options : object) (spawnFn : value) :
  NoDup (map fst options) ->
  ordinary options ->
  compilerArgsFromOptions (prepareOptions options spawnFn) =
  compilerArgsFromOptions options /\
  prepareProcessArgs sources (prepareOptions options spawnFn) =
  prepareProcessArgs sources options.
Proof.
  intros Hnd _.
  destruct (prepared_flags options spawnFn Hnd) as [Hf Hr].
  destruct (prepared_arrayLike options spawnFn Hnd) as [Hl Hn].
  assert (H : compilerArgsFromOptions (prepareOptions options spawnFn) =
              compilerArgsFromOptions options).
  { destruct (Lodash.isArrayLike options) eqn:Ha.
    - unfold compilerArgsFromOptions, Lodash.map. rewrite Hl, Hn, Ha.
      destruct (Lodash.lengthOf options <=? Lodash.MAX_ARRAY_LENGTH)%Z;
        [|reflexivity].
      rewrite (each_ext _
        (fun index => optionArgs (getProp options (indexKey index))
                        (KIndex index))); [reflexivity|].
      intros index. now rewrite (prepared_index _ _ _ Hnd).
    - rewrite (compilerArgsFromOptions_spec _ Ha).
      rewrite compilerArgsFromOptions_spec by congruence.
      now rewrite Hf, Hr. }
  split; [exact H|].
  unfold prepareProcessArgs. now rewrite H.
Qed.

(** ** Beyond the claims: the argument builder *)

Lemma getProp_app (a b : object) (k : string) :
  getProp (a ++ b) k = getProp a k \/ getProp (a ++ b) k = getProp b k.
Proof.
  induction a as [|[k' v'] rest IH]; simpl; [now right|].
  destruct (k' =? k); [now left|exact IH].
Qed.

Lemma isArrayLike_app (a b : object) :
  Lodash.isArrayLike a = false -> Lodash.isArrayLike b = false ->
  Lodash.isArrayLike (a ++ b) = false.
Proof.
  unfold Lodash.isArrayLike. intros Ha Hb.
  destruct (getProp_app a b "length") as [H|H]; now rewrite H.
Qed.

(** X4: for option lists that are iterated by key, the build of two lists
    put end to end is the build of the first followed by the build of the
    second; the first error, in key order, is the one raised. *)
Theorem compilerArgsFromOptions_app (a b : object) :
  Lodash.isArrayLike a = false ->
  Lodash.isArrayLike b = false ->
  compilerArgsFromOptions (a ++ b) =
  (fa <-? compilerArgsFromOptions a;
   fb <-? compilerArgsFromOptions b;
   Ok (fa ++ fb)).
Proof.
  intros Ha Hb.
  unfold compilerArgsFromOptions, Lodash.map, Lodash.flatten.
  rewrite Ha, Hb, (isArrayLike_app _ _ Ha Hb), each_app.
  destruct (Lodash.each _ a) as [la|e]; cbn [rbind]; [|reflexivity].
  destruct (Lodash.each _ b) as [lb|e]; cbn [rbind]; [|reflexivity].
  now rewrite concat_app.
Qed.

Lemma flagTokens_strings (k : string) (v : value) :
  (truthy v = true ->
   ((k = "output" \/ k = "report" \/ k = "docs") -> isString v = true) /\
   (k = "runtimeOptions" ->
    exists items, v = VArr items /\ forallb isString items = true)) ->
  forallb isString (flagTokens k v) = true.
Proof.
  unfold flagTokens. destruct (truthy v); [|reflexivity].
  intros H. destruct (H eq_refl) as [Hs Hr]. clear H.
  repeat match goal with
  | |- context [k =? ?s] =>
      let E := fresh "E" in
      destruct (k =? s) eqn:E;
      [apply String.eqb_eq in E; subst k;
       try reflexivity;
       try (cbn [forallb];
            rewrite Hs
              by first [left; reflexivity
                       |right; left; reflexivity
                       |right; right; reflexivity];
            reflexivity)|]
  end; [|reflexivity].
  destruct (Hr eq_refl) as (items & -> & Hi).
  cbn [Lodash.spread]. rewrite !forallb_app, Hi. reflexivity.
Qed.

Lemma flagsOf_strings (options : object) :
  stringTokens options -> forallb isString (flagsOf options) = true.
Proof.
  unfold flagsOf.
  induction options as [|[k v] rest IH]; intros Hs; [reflexivity|].
  cbn [flat_map fst snd]. rewrite forallb_app, IH.
  - rewrite flagTokens_strings; [reflexivity|].
    intros Ht. apply Hs; [now left|assumption].
  - intros k' v' Hin. apply Hs. now right.
Qed.

(** X5: when the sources are strings and the options that carry a value
    into the command line are typed as [Options] declares them, every
    argument handed to the compiler is a string. *)
Theorem prepareProcessArgs_strings
  (sources : value) (options : object) (args : list value) :
  stringSources sources = true ->
  stringTokens options ->
  prepareProcessArgs sources options = Ok args ->
  forallb isString args = true.
Proof.
  intros Hs Ho Ha.
  apply prepareProcessArgs_Ok in Ha as (flags & Hf & ->).
  assert (Hflags : forallb isString flags = true).
  { destruct (Lodash.isArrayLike options) eqn:E.
    - now rewrite (compilerArgsFromOptions_arrayLike _ _ E Hf).
    - rewrite (compilerArgsFromOptions_spec _ E) in Hf.
      destruct (firstRejected options); [discriminate|].
      injection Hf as <-. now apply flagsOf_strings. }
  cbn [forallb isString]. rewrite forallb_app, Hflags.
  destruct sources; try discriminate; cbn in *; now rewrite ?Hs.
Qed.

(** X6: the suffix of the temporary file is never empty when the default is
    not, and it is the default when no output path is configured. *)
Theorem getSuffix_not_empty
  (outputPath : value) (defaultSuffix suffix : string) :
  defaultSuffix <> EmptyString ->
  getSuffix outputPath defaultSuffix = Ok suffix ->
  suffix <> EmptyString /\
  (truthy outputPath = false -> suffix = defaultSuffix).
Proof.
  unfold getSuffix. intros Hd.
  destruct (truthy outputPath).
  - destruct (extname outputPath) as [ext|e]; cbn [rbind]; [|discriminate].
    destruct (ext =? EmptyString) eqn:E; intros [= <-].
    + split; [assumption|discriminate].
    + apply String.eqb_neq in E. split; [assumption|discriminate].
  - intros [= <-]. auto.
Qed.

(** ** Beyond the claims: the invoker *)

Lemma classifier_classifies (err : value) (path : string) :
  err <> VNull ->
  compilerErrorToString err path = Ok (classified err path).
Proof.
  intros Hn. unfold compilerErrorToString, classified, objectWithString.
  destruct err; try congruence; try reflexivity.
  unfold stringField, readProp, rbind.
  change (typeof (VObj props) =? "object") with true. cbv iota.
  destruct (getProp props "code") as [| | | | |code| | |];
    try (destruct (getProp props "message"); reflexivity).
  destruct (code =? "ENOENT"); [reflexivity|].
  destruct (code =? "EACCES"); reflexivity.
Qed.

Lemma function_defined (fn : value) :
  typeof fn = "function" -> fn <> VUndefined.
Proof. intros Ht ->. discriminate. Qed.

(** [compile] with a callable binding and arguments that build: the events
    are recorded, then the outcome of the call decides. *)
Lemma compileUsing_reaches_spawn
  (spawnFn sources : value) (options : object) (po : ProcessedOptions)
  (args : list value) (st : store) :
  processOptions options = Ok po ->
  typeof spawnFn = "function" ->
  prepareProcessArgs sources (prepareOptions options spawnFn) = Ok args ->
  compileUsing spawnFn sources options st =
  match callFunction spawnFn (pathToElm po) args (processOpts po) with
  | Ok started =>
      (Ok started,
       mkStore (callerOptions st)
         (trace st ++ compileEvents (prepareOptions options spawnFn) po args))
  | Throw err =>
      (match compilerErrorToString err (pathToElm po) with
       | Ok message => Throw (newError message)
       | Throw e => Throw e
       end,
       mkStore (callerOptions st)
         (trace st ++ compileEvents (prepareOptions options spawnFn) po args))
  end.
Proof.
  intros Hp Ht Ha.
  pose proof (prepared_spawn options spawnFn (function_defined _ Ht)) as Hs.
  unfold compileUsing, compileEvents.
  unfold bind at 1, lift at 1. rewrite Hp.
  unfold tryCatch, runCompiler. rewrite Hs, Ht.
  change (negb ("function" =? "function")) with false. cbv iota.
  unfold bind at 1, lift at 1. rewrite Ha.
  unfold_monad.
  destruct (truthy (getProp (prepareOptions options spawnFn) "verbose"));
    cbn [callerOptions trace];
    destruct (callFunction spawnFn (pathToElm po) args (processOpts po));
    try destruct (compilerErrorToString _ _);
    rewrite <- ?app_assoc; reflexivity.
Qed.

Lemma spawnCalls_compileEvents
  (st : store) (prepared : object) (po : ProcessedOptions)
  (args : list value) :
  spawnCalls
    (mkStore (callerOptions st) (trace st ++ compileEvents prepared po args))
  = spawnCalls st
    ++ [ESpawn (getProp prepared "spawn") (pathToElm po) args
          (processOpts po)].
Proof.
  unfold spawnCalls, compileEvents. cbn [trace].
  rewrite !filter_app.
  destruct (truthy (getProp prepared "verbose")); reflexivity.
Qed.

(** X7: with a callable binding and arguments that build, [compile] and
    [compileSync] call the bound function exactly once, with the processed
    path, the built arguments and the processed spawn options, whatever
    comes of the call; what the function returns is returned as it is. *)
Theorem compile_spawns_once
  (spawnFn sources : value) (options : object) (po : ProcessedOptions)
  (args : list value) (st : store) :
  processOptions options = Ok po ->
  typeof spawnFn = "function" ->
  prepareProcessArgs sources (prepareOptions options spawnFn) = Ok args ->
  spawnCalls (snd (compileUsing spawnFn sources options st)) =
  spawnCalls st
  ++ [ESpawn spawnFn (pathToElm po) args (processOpts po)] /\
  callerOptions (snd (compileUsing spawnFn sources options st)) =
  callerOptions st /\
  (forall started,
     callFunction spawnFn (pathToElm po) args (processOpts po) = Ok started ->
     fst (compileUsing spawnFn sources options st) = Ok started).
Proof.
  intros Hp Ht Ha.
  rewrite (compileUsing_reaches_spawn _ _ _ _ _ _ Hp Ht Ha).
  pose proof (prepared_spawn options spawnFn (function_defined _ Ht)) as Hs.
  destruct (callFunction spawnFn (pathToElm po) args (processOpts po));
    cbn [fst snd]; rewrite spawnCalls_compileEvents, Hs;
    repeat split; congruence.
Qed.

(** X8: an error the spawn function throws reaches the caller of [compile]
    as a new [Error] whose message is the classified text: the not-found
    text for [ENOENT], the permission text for [EACCES], and so on. *)
Theorem compile_classifies_spawn_failure
  (spawnFn sources : value) (options : object) (po : ProcessedOptions)
  (args : list value) (err : value) (st : store) :
  processOptions options = Ok po ->
  typeof spawnFn = "function" ->
  prepareProcessArgs sources (prepareOptions options spawnFn) = Ok args ->
  callFunction spawnFn (pathToElm po) args (processOpts po) = Throw err ->
  err <> VNull ->
  fst (compileUsing spawnFn sources options st) =
  Throw (newError (classified err (pathToElm po))).
Proof.
  intros Hp Ht Ha Hc Hn.
  rewrite (compileUsing_reaches_spawn _ _ _ _ _ _ Hp Ht Ha), Hc.
  now rewrite (classifier_classifies _ _ Hn).
Qed.

(** X9: the message [prepareSources] throws for a sources argument that is
    neither a string nor a list never reaches the caller of [compile]: it is
    a string, and the caller gets an [Error] with the generic text, whatever
    the options hold. *)
Theorem compile_invalid_sources_generic
  (spawnFn sources : value) (options : object) (po : ProcessedOptions)
  (st : store) :
  processOptions options = Ok po ->
  typeof spawnFn = "function" ->
  validSources sources = false ->
  prepareProcessArgs sources (prepareOptions options spawnFn) =
  Throw (VStr "compile() received neither an Array nor a String for its sources argument.") /\
  compileUsing spawnFn sources options st =
  (Throw (newError (genericMessage (pathToElm po))), st).
Proof.
  intros Hp Ht Hs.
  pose proof (prepared_spawn options spawnFn (function_defined _ Ht)) as Hsp.
  assert (Ha : forall o, prepareProcessArgs sources o =
    Throw (VStr "compile() received neither an Array nor a String for its sources argument.")).
  { intros o. unfold prepareProcessArgs.
    destruct sources; try discriminate; reflexivity. }
  split; [apply Ha|].
  unfold compileUsing. unfold bind at 1, lift at 1. rewrite Hp.
  unfold tryCatch, runCompiler. rewrite Hsp, Ht.
  change (negb ("function" =? "function")) with false. cbv iota.
  unfold bind at 1, lift at 1. rewrite Ha. reflexivity.
Qed.

(** X10: a rejected key of ordinary caller's options that are iterated by
    key reaches the caller of [compile] as a new [Error] whose message is the
    JSON string of the rejection message, quotes included, and nothing is
    spawned. *)
Theorem compile_rejected_key_stringified
  (spawnFn sources : value) (options : object) (po : ProcessedOptions)
  (k : string) (st : store) :
  processOptions options = Ok po ->
  typeof spawnFn = "function" ->
  validSources sources = true ->
  NoDup (map fst options) ->
  ordinary options ->
  Lodash.isArrayLike options = false ->
  firstRejected options = Some k ->
  compileUsing spawnFn sources options st =
  (Throw (newError (JSON_stringify (rejectionMessage k))), st).
Proof.
  intros Hp Ht Hs Hnd _ Hk Hr.
  pose proof (prepared_spawn options spawnFn (function_defined _ Ht)) as Hsp.
  destruct (prepared_flags options spawnFn Hnd) as [_ Hf].
  destruct (prepared_arrayLike options spawnFn Hnd) as [Hl _].
  assert (Ha : prepareProcessArgs sources (prepareOptions options spawnFn) =
               Throw (newError (rejectionMessage k))).
  { unfold prepareProcessArgs.
    rewrite compilerArgsFromOptions_spec by congruence. rewrite Hf, Hr.
    destruct sources; try discriminate; reflexivity. }
  unfold compileUsing. unfold bind at 1, lift at 1. rewrite Hp.
  unfold tryCatch, runCompiler. rewrite Hsp, Ht.
  change (negb ("function" =? "function")) with false. cbv iota.
  unfold bind at 1, lift at 1. rewrite Ha. reflexivity.
Qed.

(** ** Beyond the claims: the capture functions *)

(** X11: a bad [output] option makes both capture functions throw at once,
    [compileToString] included, before any promise exists; nothing is
    written to the caller's object and nothing is spawned. *)
Theorem capture_throws_on_bad_output
  (sources : value) (st : store) (e : value) :
  getSuffix (getProp (callerOptions st) "output") ".js" = Throw e ->
  compileToString sources st = (Throw e, st) /\
  compileToStringSync sources st = (Throw e, st).
Proof.
  intros Hs. split.
  - unfold compileToString.
    unfold bind at 1, readOptions at 1. unfold bind at 1, lift at 1.
    now rewrite Hs.
  - unfold compileToStringSync.
    unfold bind at 1, readOptions at 1. unfold bind at 1, lift at 1.
    now rewrite Hs.
Qed.

(** X12: when the temporary file cannot be created, [compileToString]
    rejects with the error of [temp.open] and [compileToStringSync] throws
    it; the caller's object is not written to and nothing is spawned. *)
Theorem capture_without_temporary_file
  (sources : value) (st : store) (suffix : string) (err : value) :
  getSuffix (getProp (callerOptions st) "output") ".js" = Ok suffix ->
  temp_open suffix = Throw err ->
  compileToString sources st = (Ok (Rejected err), st) /\
  compileToStringSync sources st = (Throw err, st).
Proof.
  intros Hs Ht. split.
  - unfold compileToString.
    unfold bind at 1, readOptions at 1. unfold bind at 1, lift at 1.
    now rewrite Hs, Ht.
  - unfold compileToStringSync.
    unfold bind at 1, readOptions at 1. unfold bind at 1, lift at 1.
    rewrite Hs. unfold bind at 1, lift at 1. now rewrite Ht.
Qed.

(** X13: an exception of [compile] does not leave [compileToString] as an
    exception: the promise is rejected with it. *)
Theorem compileToString_rejects_compile_error
  (sources : value) (st st' : store) (suffix path : string) (e : value) :
  getSuffix (getProp (callerOptions st) "output") ".js" = Ok suffix ->
  temp_open suffix = Ok path ->
  compile sources (overwritten (callerOptions st) path)
    (mkStore (overwritten (callerOptions st) path) (trace st))
  = (Throw e, st') ->
  compileToString sources st = (Ok (Rejected e), st').
Proof.
  intros Hs Ht Hc.
  rewrite (compileToString_run _ _ _ _ Hs Ht). cbv zeta. now rewrite Hc.
Qed.

(** X14: after a clean exit a temporary file that cannot be read rejects
    the promise with the error of the read. *)
Theorem compileToString_rejects_read_error
  (sources : value) (st st' : store) (suffix path : string)
  (compiler : ChildProcess) (err : value) :
  getSuffix (getProp (callerOptions st) "output") ".js" = Ok suffix ->
  temp_open suffix = Ok path ->
  compile sources (overwritten (callerOptions st) path)
    (mkStore (overwritten (callerOptions st) path) (trace st))
  = (Ok compiler, st') ->
  exitCode compiler = Some 0%Z ->
  readFile path = Throw err ->
  fst (compileToString sources st) = Ok (Rejected err).
Proof.
  intros Hs Ht Hc He Hr.
  rewrite (compileToString_run _ _ _ _ Hs Ht). cbv zeta.
  now rewrite Hc, He, Hr.
Qed.

Lemma overwritten_verbose (o : object) (path : string) :
  getProp (overwritten o path) "verbose" = getProp o "verbose".
Proof.
  unfold overwritten.
  now rewrite !getProp_setProp_other by reflexivity.
Qed.

(** X15: [compileToString] logs the collected output only after a clean
    exit and only in verbose mode; after any other exit it records nothing
    of its own, verbose or not. *)
Theorem compileToString_logs_on_success_only
  (sources : value) (st st' : store) (suffix path : string)
  (compiler : ChildProcess) :
  getSuffix (getProp (callerOptions st) "output") ".js" = Ok suffix ->
  temp_open suffix = Ok path ->
  compile sources (overwritten (callerOptions st) path)
    (mkStore (overwritten (callerOptions st) path) (trace st))
  = (Ok compiler, st') ->
  snd (compileToString sources st) =
  match exitCode compiler with
  | Some 0%Z =>
      if truthy (getProp (callerOptions st) "verbose")
      then mkStore (callerOptions st')
             (trace st' ++ [ELog [VStr (concatenation (dataEvents compiler))]])
      else st'
  | _ => st'
  end.
Proof.
  intros Hs Ht Hc.
  rewrite (compileToString_run _ _ _ _ Hs Ht). cbv zeta. rewrite Hc.
  rewrite overwritten_verbose, collectOutput_concatenation.
  destruct (exitCode compiler) as [[|p|p]|]; reflexivity.
Qed.

(** X16: an exception of [compileSync] leaves [compileToStringSync] as it
    is, and the temporary file is not read. *)
Theorem compileToStringSync_propagates_compile_error
  (sources : value) (st st' : store) (suffix file : string) (e : value) :
  getSuffix (getProp (callerOptions st) "output") ".js" = Ok suffix ->
  temp_open suffix = Ok file ->
  compileSync sources (setProp (callerOptions st) "output" (VStr file))
    (mkStore (setProp (callerOptions st) "output" (VStr file)) (trace st))
  = (Throw e, st') ->
  compileToStringSync sources st = (Throw e, st').
Proof.
  intros Hs Ht Hc.
  rewrite (compileToStringSync_run _ _ _ _ Hs Ht). cbv zeta. now rewrite Hc.
Qed.

Lemma compileToString_options
  (sources : value) (st : store) (suffix path : string) :
  getSuffix (getProp (callerOptions st) "output") ".js" = Ok suffix ->
  temp_open suffix = Ok path ->
  callerOptions (snd (compileToString sources st)) =
  overwritten (callerOptions st) path.
Proof.
  intros Hs Ht.
  rewrite (compileToString_run _ _ _ _ Hs Ht). cbv zeta.
  set (o := overwritten (callerOptions st) path).
  pose proof (compileUsing_events spawn sources o (mkStore o (trace st)))
    as (evs & Hsnd & _).
  fold (compile sources o (mkStore o (trace st))) in Hsnd.
  destruct (compile sources o (mkStore o (trace st))) as [started st'].
  cbn [snd callerOptions] in Hsnd.
  destruct started as [compiler|e]; cbn [snd]; [|now rewrite Hsnd].
  destruct (exitCode compiler) as [[|p|p]|]; cbn [snd];
    try (now rewrite Hsnd).
  destruct (truthy (getProp o "verbose")); cbn [snd callerOptions];
    now rewrite Hsnd.
Qed.

(** X17: a second capture with the same options object takes its suffix
    from the temporary path of the first, not from the output path the
    caller had configured. *)
Theorem second_capture_suffix
  (sources : value) (st : store) (suffix path : string) :
  getSuffix (getProp (callerOptions st) "output") ".js" = Ok suffix ->
  temp_open suffix = Ok path ->
  getSuffix
    (getProp (callerOptions (snd (compileToString sources st))) "output")
    ".js"
  = getSuffix (VStr path) ".js".
Proof.
  intros Hs Ht.
  now rewrite (compileToString_options _ _ _ _ Hs Ht), overwritten_output.
Qed.

End Compiler.

(** ** The theorems at concrete inputs *)

Lemma release_valid : validConfiguration Example.spawn Example.release.
Proof.
  intros k v Hin. simpl in Hin.
  repeat (destruct Hin as [Hin|Hin]; [injection Hin as <- <-; reflexivity|]).
  contradiction.
Defined.

Lemma prepareProcessArgs_make_sources_flags_witness :
  validSources Example.twoSources = true /\
  Lodash.isArrayLike Example.release = false /\
  validConfiguration Example.spawn Example.release /\
  prepareProcessArgs Example.spawn Example.twoSources Example.release =
  Ok [VStr "make"; VStr "Main.elm"; VStr "Worker.elm";
      VStr "--output"; VStr "elm.js"; VStr "--optimize"] /\
  Lodash.isArrayLike Example.outputCounted = true /\
  compilerArgsFromOptions Example.spawn Example.outputCounted = Ok [] /\
  prepareProcessArgs Example.spawn Example.twoSources Example.outputCounted =
  Ok [VStr "make"; VStr "Main.elm"; VStr "Worker.elm"].
Proof.
  pose proof (prepareProcessArgs_make_sources_flags Example.spawn
                Example.twoSources Example.release eq_refl)
    as (_ & Hkeyed & _).
  pose proof (prepareProcessArgs_make_sources_flags Example.spawn
                Example.twoSources Example.outputCounted eq_refl)
    as (Hany & _ & _).
  split; [reflexivity|].
  split; [reflexivity|].
  split; [exact release_valid|].
  split; [exact (Hkeyed eq_refl release_valid)|].
  split; [reflexivity|].
  split; [reflexivity|].
  exact (Hany [] eq_refl).
Defined.

(** C2 fails as stated: with [runtimeOptions] enumerated before
    [optimize], ["--optimize"] follows ["-RTS"]. *)
Lemma runtimeOptions_block_not_last :
  prepareProcessArgs Example.spawn Example.oneSource
    Example.runtimeThenOptimize =
  Ok [VStr "make"; VStr "Main.elm"; VStr "+RTS"; VStr "-A128M"; VStr "-RTS";
      VStr "--optimize"] /\
  prepareProcessArgs Example.spawn Example.oneSource
    (prepareOptions Example.spawn Example.runtimeThenOptimize Example.spawn) =
  Ok [VStr "make"; VStr "Main.elm"; VStr "+RTS"; VStr "-A128M"; VStr "-RTS";
      VStr "--optimize"] /\
  ~ runtimeBlockLast [VStr "-A128M"]
      [VStr "make"; VStr "Main.elm"; VStr "+RTS"; VStr "-A128M"; VStr "-RTS";
       VStr "--optimize"].
Proof.
  split; [reflexivity|split; [reflexivity|]].
  intros [front H].
  apply (f_equal (@rev value)) in H.
  rewrite rev_app_distr in H. simpl in H. discriminate.
Qed.

Lemma runtimeOptions_block_in_place_witness :
  validSources Example.oneSource = true /\
  Lodash.isArrayLike
    ([("debug", VBool true)]
     ++ ("runtimeOptions", VArr [VStr "-A128M"; VStr "-H128M"; VStr "-n8m"])
     :: [("optimize", VBool true)]) = false /\
  validConfiguration Example.spawn
    ([("debug", VBool true)]
     ++ ("runtimeOptions", VArr [VStr "-A128M"; VStr "-H128M"; VStr "-n8m"])
     :: [("optimize", VBool true)]) /\
  prepareProcessArgs Example.spawn Example.oneSource
    ([("debug", VBool true)]
     ++ ("runtimeOptions", VArr [VStr "-A128M"; VStr "-H128M"; VStr "-n8m"])
     :: [("optimize", VBool true)]) =
  Ok [VStr "make"; VStr "Main.elm"; VStr "--debug";
      VStr "+RTS"; VStr "-A128M"; VStr "-H128M"; VStr "-n8m"; VStr "-RTS";
      VStr "--optimize"].
Proof.
  assert (Hv : validConfiguration Example.spawn
    ([("debug", VBool true)]
     ++ ("runtimeOptions", VArr [VStr "-A128M"; VStr "-H128M"; VStr "-n8m"])
     :: [("optimize", VBool true)])).
  { intros k v Hin. simpl in Hin.
    repeat (destruct Hin as [Hin|Hin]; [injection Hin as <- <-; reflexivity|]).
    contradiction. }
  split; [reflexivity|split; [reflexivity|split; [exact Hv|]]].
  exact (runtimeOptions_block_in_place Example.spawn Example.oneSource
           [("debug", VBool true)] [("optimize", VBool true)]
           [VStr "-A128M"; VStr "-H128M"; VStr "-n8m"] eq_refl eq_refl Hv).
Defined.

(** Array-like options give no runtime block at all: lodash visits their
    indices, and [runtimeOptions] is no index. *)
Lemma runtimeOptions_of_array_like_dropped :
  Lodash.isArrayLike Example.runtimeCounted = true /\
  prepareProcessArgs Example.spawn Example.oneSource Example.runtimeCounted =
  Ok [VStr "make"; VStr "Main.elm"].
Proof. split; reflexivity. Qed.



(** In array-like options a truthy key outside the recognized set is not
    visited, and nothing is raised; a truthy element is rejected, under its
    index. *)
Lemma unrecognized_key_of_array_like_accepted :
  Lodash.isArrayLike Example.fooOutputCounted = true /\
  In ("foo", VStr "bar") Example.fooOutputCounted /\
  unsupported Example.spawn "foo" = true /\
  compilerArgsFromOptions Example.spawn Example.fooOutputCounted = Ok [] /\
  prepareProcessArgs Example.spawn Example.oneSource Example.fooOutputCounted
  = Ok [VStr "make"; VStr "Main.elm"] /\
  compilerArgsFromOptions Example.spawn Example.debugCounted = Ok [] /\
  compilerArgsFromOptions Example.spawn Example.elementCounted =
  Throw (newError
           "node-elm-compiler was given an unrecognized Elm compiler option: 0").
Proof. repeat split; try reflexivity. now left. Qed.

Lemma falsy_key_ignored_witness :
  truthy (VBool false) = false /\
  optionArgs Example.spawn (VBool false) "foo" = Ok [] /\
  optionArgs Example.spawn (VBool false) (KIndex 0) = Ok [] /\
  compilerArgsFromOptions Example.spawn
    ([("debug", VBool true)] ++ ("foo", VBool false) :: []) =
  compilerArgsFromOptions Example.spawn ([("debug", VBool true)] ++ []) /\
  compilerArgsFromOptions Example.spawn
    ([("debug", VBool true)] ++ ("foo", VBool false) :: []) =
  Ok [VStr "--debug"] /\
  (compilerArgsFromOptions Example.spawn Example.elementCounted =
   Throw (newError (unrecognizedMessage (KIndex 0))) /\
   (newError (unrecognizedMessage (KIndex 0)) = Lodash.invalidArrayLength \/
    exists val opt,
      truthy val = true /\
      optionArgs Example.spawn val opt =
      Throw (newError (unrecognizedMessage (KIndex 0))))).
Proof.
  pose proof (falsy_key_ignored Example.spawn [("debug", VBool true)] []
                "foo" (VBool false) eq_refl) as (Hi & He & Hv & Ht).
  split; [reflexivity|].
  split; [exact (Hi (KName "foo"))|].
  split; [exact (Hi (KIndex 0))|].
  split; [exact (He eq_refl eq_refl)|].
  split.
  - apply Hv; [reflexivity|].
    intros k v Hin. simpl in Hin.
    repeat (destruct Hin as [Hin|Hin]; [injection Hin as <- <-; reflexivity|]).
    contradiction.
  - split; [reflexivity|].
    exact (Ht Example.elementCounted _ eq_refl).
Defined.

Lemma compilerErrorToString_classified_witness :
  Example.enoent <> VNull /\
  compilerErrorToString Example.toString Example.stringify Example.enoent "elm"
  = Ok ("Could not find Elm compiler " ++ quote ++ "elm" ++ quote
        ++ ". Is it installed?")%string.
Proof.
  split; [discriminate|].
  apply (compilerErrorToString_classified Example.toString Example.stringify
           Example.enoent "elm").
  discriminate.
Defined.

(** [null] is the one value the classifier does not classify: reading its
    [code] raises. *)
Lemma compilerErrorToString_null
  (toString : value -> string) (JSON_stringify : string -> string)
  (pathToElm : string) :
  exists e,
    compilerErrorToString toString JSON_stringify VNull pathToElm = Throw e.
Proof. eexists. reflexivity. Qed.

Ltac no_such_key :=
  let Hin := fresh "Hin" in
  intros Hin; simpl in Hin;
  repeat (destruct Hin as [Hin|Hin]; [discriminate Hin|]);
  contradiction.




Lemma compileToString_settles_witness :
  (getSuffix Example.extname (getProp (callerOptions Example.quiet) "output")
     ".js" = Ok ".js" /\
   Example.tempOpen ".js" = Ok "/tmp/elm.js" /\
   exitCode Example.failedRun <> Some 0%Z /\
   exitCode Example.goodRun = Some 0%Z /\
   Example.compiledFile "/tmp/elm.js" = Ok "compiled") /\
  fst (compileToString Example.spawn Example.failing Example.processOptions
         Example.toString Example.stringify Example.extname Example.tempOpen
         Example.compiledFile Example.oneSource Example.quiet)
  = Ok (Rejected
          (newError ("Compilation failed" ++ newline
                     ++ "-- PARSE ERROR Bad.elm line 3")%string)) /\
  fst (compileToString Example.spawn Example.succeeding
         Example.processOptions Example.toString Example.stringify
         Example.extname Example.tempOpen Example.compiledFile
         Example.oneSource Example.quiet)
  = Ok (Resolved "compiled").
Proof.
  split; [repeat split; discriminate|split].
  - apply (compileToString_settles Example.spawn Example.failing
             Example.processOptions Example.toString Example.stringify
             Example.extname Example.tempOpen Example.compiledFile
             Example.oneSource Example.quiet
             (snd (compile Example.spawn Example.failing
                     Example.processOptions Example.toString
                     Example.stringify Example.oneSource
                     (overwritten (callerOptions Example.quiet) "/tmp/elm.js")
                     (mkStore
                        (overwritten (callerOptions Example.quiet)
                           "/tmp/elm.js")
                        (trace Example.quiet))))
             ".js" "/tmp/elm.js" Example.failedRun
             eq_refl eq_refl eq_refl).
    discriminate.
  - apply (compileToString_settles Example.spawn Example.succeeding
             Example.processOptions Example.toString Example.stringify
             Example.extname Example.tempOpen Example.compiledFile
             Example.oneSource Example.quiet
             (snd (compile Example.spawn Example.succeeding
                     Example.processOptions Example.toString
                     Example.stringify Example.oneSource
                     (overwritten (callerOptions Example.quiet) "/tmp/elm.js")
                     (mkStore
                        (overwritten (callerOptions Example.quiet)
                           "/tmp/elm.js")
                        (trace Example.quiet))))
             ".js" "/tmp/elm.js" Example.goodRun
             eq_refl eq_refl eq_refl);
      reflexivity.
Defined.

(** The failing input of C5: the compiler exits 1 and has written nothing,
    and [compileToStringSync] returns the empty text of the file. *)
Lemma compileToStringSync_ignores_exit_code_witness :
  (getSuffix Example.extname (getProp (callerOptions Example.quiet) "output")
     ".js" = Ok ".js" /\
   Example.tempOpen ".js" = Ok "/tmp/elm.js" /\
   exitCode Example.failedRun = Some 1%Z) /\
  fst (compileToStringSync Example.spawn Example.spawnSync Example.failing
         Example.processOptions Example.toString Example.stringify
         Example.extname Example.tempOpen Example.emptyFile
         Example.oneSource Example.quiet)
  = Ok EmptyString.
Proof.
  split; [repeat split|].
  exact (compileToStringSync_ignores_exit_code Example.spawn
           Example.spawnSync Example.failing Example.processOptions
           Example.toString Example.stringify Example.extname
           Example.tempOpen Example.emptyFile Example.oneSource Example.quiet
           (snd (compileSync Example.spawn Example.spawnSync Example.failing
                   Example.processOptions Example.toString Example.stringify
                   Example.oneSource
                   (setProp (callerOptions Example.quiet) "output"
                      (VStr "/tmp/elm.js"))
                   (mkStore
                      (setProp (callerOptions Example.quiet) "output"
                         (VStr "/tmp/elm.js"))
                      (trace Example.quiet))))
           ".js" "/tmp/elm.js" Example.failedRun eq_refl eq_refl eq_refl).
Defined.

Lemma quiet_keyed : keyed (callerOptions Example.quiet).
Proof. split; [no_such_key|intros v; no_such_key]. Defined.

Lemma capture_overwrites_caller_options_witness :
  (getSuffix Example.extname (getProp (callerOptions Example.quiet) "output")
     ".js" = Ok ".js" /\
   Example.tempOpen ".js" = Ok "/tmp/elm.js" /\
   keyed (callerOptions Example.quiet) /\
   "/tmp/elm.js" <> EmptyString) /\
  callerOptions
    (snd (compileToString Example.spawn Example.failing
            Example.processOptions Example.toString Example.stringify
            Example.extname Example.tempOpen Example.compiledFile
            Example.oneSource Example.quiet))
  = [("cwd", VStr "fixtures"); ("output", VStr "/tmp/elm.js");
     ("processOpts", VObj [("stdio", VStr "pipe")])] /\
  spawnsPrepared Example.spawn Example.processOptions (trace Example.quiet)
    (trace
       (snd (compileToString Example.spawn Example.failing
               Example.processOptions Example.toString Example.stringify
               Example.extname Example.tempOpen Example.compiledFile
               Example.oneSource Example.quiet)))
    Example.spawn Example.oneSource
    [("cwd", VStr "fixtures"); ("output", VStr "/tmp/elm.js");
     ("processOpts", VObj [("stdio", VStr "pipe")])] /\
  spawnsWithOutput (trace Example.quiet)
    (trace
       (snd (compileToString Example.spawn Example.failing
               Example.processOptions Example.toString Example.stringify
               Example.extname Example.tempOpen Example.compiledFile
               Example.oneSource Example.quiet)))
    "/tmp/elm.js" /\
  callerOptions
    (snd (compileToStringSync Example.spawn Example.spawnSync Example.failing
            Example.processOptions Example.toString Example.stringify
            Example.extname Example.tempOpen Example.compiledFile
            Example.oneSource Example.quiet))
  = [("cwd", VStr "fixtures"); ("output", VStr "/tmp/elm.js")] /\
  spawnsPrepared Example.spawn Example.processOptions (trace Example.quiet)
    (trace
       (snd (compileToStringSync Example.spawn Example.spawnSync
               Example.failing Example.processOptions Example.toString
               Example.stringify Example.extname Example.tempOpen
               Example.compiledFile Example.oneSource Example.quiet)))
    Example.spawnSync Example.oneSource
    [("cwd", VStr "fixtures"); ("output", VStr "/tmp/elm.js")].
Proof.
  pose proof (capture_overwrites_caller_options Example.spawn
                Example.spawnSync Example.failing Example.processOptions
                Example.toString Example.stringify Example.extname
                Example.tempOpen Example.compiledFile Example.oneSource
                Example.quiet ".js" "/tmp/elm.js" eq_refl eq_refl)
    as (Ha & _ & _ & Hp & Hw & Hs & _ & Hq).
  split;
    [split; [reflexivity|split; [reflexivity|split;
       [exact quiet_keyed|discriminate]]]|].
  split; [exact Ha|].
  split; [exact Hp|].
  split; [apply Hw; [exact quiet_keyed|discriminate]|].
  split; [exact Hs|exact Hq].
Defined.

(** The spawn call of the run above: the path of the temporary file is on
    the command line, and the spawn options are the piped setting that
    [processOptions] has read from the overwritten object. *)
Lemma capture_spawns_piped :
  trace
    (snd (compileToString Example.spawn Example.failing
            Example.processOptions Example.toString Example.stringify
            Example.extname Example.tempOpen Example.compiledFile
            Example.oneSource Example.quiet))
  = [ESpawn Example.spawn "elm"
       [VStr "make"; VStr "Main.elm"; VStr "--output"; VStr "/tmp/elm.js"]
       (VObj [("stdio", VStr "pipe")])] /\
  trace
    (snd (compileToStringSync Example.spawn Example.spawnSync Example.failing
            Example.processOptions Example.toString Example.stringify
            Example.extname Example.tempOpen Example.compiledFile
            Example.oneSource Example.quiet))
  = [ESpawn Example.spawnSync "elm"
       [VStr "make"; VStr "Main.elm"; VStr "--output"; VStr "/tmp/elm.js"]
       VUndefined].
Proof. split; reflexivity. Qed.

(** With array-like caller's options the two fields are overwritten all the
    same, but lodash visits no key of theirs: the spawn call carries no
    ["--output"]. *)
Lemma capture_of_array_like_spawns_without_output :
  callerOptions
    (snd (compileToString Example.spawn Example.failing
            Example.processOptions Example.toString Example.stringify
            Example.extname Example.tempOpen Example.compiledFile
            Example.oneSource Example.counted))
  = [("length", VNum 0); ("output", VStr "/tmp/elm.js");
     ("processOpts", VObj [("stdio", VStr "pipe")])] /\
  trace
    (snd (compileToString Example.spawn Example.failing
            Example.processOptions Example.toString Example.stringify
            Example.extname Example.tempOpen Example.compiledFile
            Example.oneSource Example.counted))
  = [ESpawn Example.spawn "elm" [VStr "make"; VStr "Main.elm"]
       (VObj [("stdio", VStr "pipe")])].
Proof. split; reflexivity. Qed.

(** ** The properties beyond the claims at concrete inputs *)

Ltac distinct_keys :=
  cbn [map fst];
  repeat (constructor; [cbn [In]; intuition discriminate|]);
  constructor.

Lemma prepareOptions_binds_spawn_witness :
  Example.spawnSync <> VUndefined /\
  getProp (prepareOptions Example.spawn Example.ownSpawn Example.spawnSync)
    "spawn" = Example.spawnSync /\
  (typeof
     (getProp (prepareOptions Example.spawn Example.ownSpawn Example.spawnSync)
        "spawn") =? "function") = true.
Proof.
  assert (Hd : Example.spawnSync <> VUndefined) by discriminate.
  pose proof (prepareOptions_binds_spawn Example.spawn Example.ownSpawn
                Example.spawnSync Hd) as (Hb & Ht).
  split; [exact Hd|split; [exact Hb|exact (Ht eq_refl)]].
Defined.


Lemma prepareOptions_same_arguments_witness :
  NoDup (map fst Example.withFoo) /\
  ordinary Example.withFoo /\
  compilerArgsFromOptions Example.spawn
    (prepareOptions Example.spawn Example.withFoo Example.spawn) =
  compilerArgsFromOptions Example.spawn Example.withFoo /\
  prepareProcessArgs Example.spawn Example.oneSource
    (prepareOptions Example.spawn Example.withFoo Example.spawn) =
  prepareProcessArgs Example.spawn Example.oneSource Example.withFoo /\
  NoDup (map fst Example.fooOutputCounted) /\
  ordinary Example.fooOutputCounted /\
  Lodash.isArrayLike Example.fooOutputCounted = true /\
  prepareProcessArgs Example.spawn Example.oneSource
    (prepareOptions Example.spawn Example.fooOutputCounted Example.spawn) =
  prepareProcessArgs Example.spawn Example.oneSource Example.fooOutputCounted.
Proof.
  assert (Hn : NoDup (map fst Example.withFoo)) by distinct_keys.
  assert (Ho : ordinary Example.withFoo) by no_such_key.
  assert (Hc : NoDup (map fst Example.fooOutputCounted)) by distinct_keys.
  assert (Hd : ordinary Example.fooOutputCounted) by no_such_key.
  split; [exact Hn|split; [exact Ho|]].
  destruct (prepareOptions_same_arguments Example.spawn Example.oneSource
              Example.withFoo Example.spawn Hn Ho) as [Hb Hp].
  split; [exact Hb|split; [exact Hp|]].
  split; [exact Hc|split; [exact Hd|split; [reflexivity|]]].
  exact (proj2 (prepareOptions_same_arguments Example.spawn Example.oneSource
                  Example.fooOutputCounted Example.spawn Hc Hd)).
Defined.

Lemma compilerArgsFromOptions_app_witness :
  Lodash.isArrayLike [("debug", VBool true)] = false /\
  Lodash.isArrayLike Example.runtimeThenOptimize = false /\
  compilerArgsFromOptions Example.spawn
    ([("debug", VBool true)] ++ Example.runtimeThenOptimize) =
  (fa <-? compilerArgsFromOptions Example.spawn [("debug", VBool true)];
   fb <-? compilerArgsFromOptions Example.spawn Example.runtimeThenOptimize;
   Ok (fa ++ fb)) /\
  compilerArgsFromOptions Example.spawn
    ([("debug", VBool true)] ++ Example.runtimeThenOptimize) =
  Ok [VStr "--debug"; VStr "+RTS"; VStr "-A128M"; VStr "-RTS";
      VStr "--optimize"].
Proof.
  split; [reflexivity|split; [reflexivity|]].
  split; [|reflexivity].
  exact (compilerArgsFromOptions_app Example.spawn [("debug", VBool true)]
           Example.runtimeThenOptimize eq_refl eq_refl).
Defined.

Lemma typed_stringTokens : stringTokens Example.typed.
Proof.
  intros k v Hin Ht. cbn [Example.typed In] in Hin.
  repeat (destruct Hin as [Hin|Hin];
          [injection Hin as <- <-;
           (split;
            [intros [H|[H|H]]; first [reflexivity|discriminate H]
            |intros H;
             first [discriminate H|eexists; split; reflexivity]])|]).
  contradiction.
Defined.

Lemma prepareProcessArgs_strings_witness :
  stringSources Example.twoSources = true /\
  stringTokens Example.typed /\
  prepareProcessArgs Example.spawn Example.twoSources Example.typed =
  Ok [VStr "make"; VStr "Main.elm"; VStr "Worker.elm"; VStr "--output";
      VStr "elm.js"; VStr "+RTS"; VStr "-A128M"; VStr "-H128M"; VStr "-RTS";
      VStr "--debug"] /\
  forallb isString
    [VStr "make"; VStr "Main.elm"; VStr "Worker.elm"; VStr "--output";
     VStr "elm.js"; VStr "+RTS"; VStr "-A128M"; VStr "-H128M"; VStr "-RTS";
     VStr "--debug"] = true.
Proof.
  split; [reflexivity|split; [exact typed_stringTokens|split;
    [reflexivity|]]].
  exact (prepareProcessArgs_strings Example.spawn Example.twoSources
           Example.typed _ eq_refl typed_stringTokens eq_refl).
Defined.

Lemma getSuffix_not_empty_witness :
  (".js" <> EmptyString /\
   getSuffix Example.extname (VStr "out/compiled.html") ".js" = Ok ".html" /\
   getSuffix Example.extname VUndefined ".js" = Ok ".js" /\
   truthy VUndefined = false) /\
  ".html" <> EmptyString /\
  ".js" = ".js".
Proof.
  assert (Hd : ".js" <> EmptyString) by discriminate.
  split; [repeat split; exact Hd|].
  split.
  - exact (proj1 (getSuffix_not_empty Example.extname
                    (VStr "out/compiled.html") ".js" ".html" Hd eq_refl)).
  - exact (proj2 (getSuffix_not_empty Example.extname VUndefined ".js" ".js"
                    Hd eq_refl) eq_refl).
Defined.

Lemma compile_spawns_once_witness :
  (Example.processOptions Example.release = Ok (mkProcessed "elm" VUndefined) /\
   typeof Example.spawn = "function" /\
   prepareProcessArgs Example.spawn Example.oneSource
     (prepareOptions Example.spawn Example.release Example.spawn)
   = Ok Example.releaseArgs /\
   Example.succeeding Example.spawn "elm" Example.releaseArgs VUndefined
   = Ok Example.goodRun) /\
  spawnCalls
    (snd (compile Example.spawn Example.succeeding Example.processOptions
            Example.toString Example.stringify Example.oneSource
            Example.release Example.quiet))
  = spawnCalls Example.quiet
    ++ [ESpawn Example.spawn "elm" Example.releaseArgs VUndefined] /\
  callerOptions
    (snd (compile Example.spawn Example.succeeding Example.processOptions
            Example.toString Example.stringify Example.oneSource
            Example.release Example.quiet))
  = callerOptions Example.quiet /\
  fst (compile Example.spawn Example.succeeding Example.processOptions
         Example.toString Example.stringify Example.oneSource
         Example.release Example.quiet)
  = Ok Example.goodRun.
Proof.
  pose proof (compile_spawns_once Example.spawn Example.succeeding
                Example.processOptions Example.toString Example.stringify
                Example.spawn Example.oneSource Example.release
                (mkProcessed "elm" VUndefined) Example.releaseArgs
                Example.quiet eq_refl eq_refl eq_refl) as (Hs & Hc & Hr).
  split; [repeat split|].
  split; [exact Hs|split; [exact Hc|exact (Hr Example.goodRun eq_refl)]].
Defined.

Lemma compile_classifies_spawn_failure_witness :
  (Example.processOptions Example.release = Ok (mkProcessed "elm" VUndefined) /\
   typeof Example.spawn = "function" /\
   prepareProcessArgs Example.spawn Example.oneSource
     (prepareOptions Example.spawn Example.release Example.spawn)
   = Ok Example.releaseArgs /\
   Example.throwing Example.spawn "elm" Example.releaseArgs VUndefined
   = Throw Example.enoent /\
   Example.enoent <> VNull) /\
  fst (compile Example.spawn Example.throwing Example.processOptions
         Example.toString Example.stringify Example.oneSource
         Example.release Example.quiet)
  = Throw (newError ("Could not find Elm compiler " ++ quote ++ "elm"
                     ++ quote ++ ". Is it installed?")%string).
Proof.
  assert (Hn : Example.enoent <> VNull) by discriminate.
  split; [repeat split; exact Hn|].
  exact (compile_classifies_spawn_failure Example.spawn Example.throwing
           Example.processOptions Example.toString Example.stringify
           Example.spawn Example.oneSource Example.release
           (mkProcessed "elm" VUndefined) Example.releaseArgs Example.enoent
           Example.quiet eq_refl eq_refl eq_refl eq_refl Hn).
Defined.

Lemma compile_invalid_sources_generic_witness :
  (Example.processOptions Example.release = Ok (mkProcessed "elm" VUndefined) /\
   typeof Example.spawn = "function" /\
   validSources (VNum 3) = false) /\
  prepareProcessArgs Example.spawn (VNum 3)
    (prepareOptions Example.spawn Example.release Example.spawn)
  = Throw (VStr "compile() received neither an Array nor a String for its sources argument.") /\
  compile Example.spawn Example.succeeding Example.processOptions
    Example.toString Example.stringify (VNum 3) Example.release Example.quiet
  = (Throw (newError (genericMessage Example.stringify "elm")),
     Example.quiet).
Proof.
  split; [repeat split|].
  exact (compile_invalid_sources_generic Example.spawn Example.succeeding
           Example.processOptions Example.toString Example.stringify
           Example.spawn (VNum 3) Example.release
           (mkProcessed "elm" VUndefined) Example.quiet
           eq_refl eq_refl eq_refl).
Defined.

Lemma compile_rejected_key_stringified_witness :
  (Example.processOptions Example.withFoo = Ok (mkProcessed "elm" VUndefined) /\
   typeof Example.spawn = "function" /\
   validSources Example.oneSource = true /\
   NoDup (map fst Example.withFoo) /\
   ordinary Example.withFoo /\
   Lodash.isArrayLike Example.withFoo = false /\
   firstRejected Example.spawn Example.withFoo = Some "foo") /\
  compile Example.spawn Example.succeeding Example.processOptions
    Example.toString Example.stringify Example.oneSource Example.withFoo
    Example.quiet
  = (Throw (newError (Example.stringify (rejectionMessage "foo"))),
     Example.quiet).
Proof.
  assert (Hn : NoDup (map fst Example.withFoo)) by distinct_keys.
  assert (Ho : ordinary Example.withFoo) by no_such_key.
  split; [repeat split; [exact Hn|exact Ho]|].
  exact (compile_rejected_key_stringified Example.spawn Example.succeeding
           Example.processOptions Example.toString Example.stringify
           Example.spawn Example.oneSource Example.withFoo
           (mkProcessed "elm" VUndefined) "foo" Example.quiet
           eq_refl eq_refl eq_refl Hn Ho eq_refl eq_refl).
Defined.

Lemma capture_throws_on_bad_output_witness :
  getSuffix Example.extname (getProp (callerOptions Example.badOutput) "output")
    ".js"
  = Throw (newError "The path argument must be of type string") /\
  compileToString Example.spawn Example.succeeding Example.processOptions
    Example.toString Example.stringify Example.extname Example.tempOpen
    Example.compiledFile Example.oneSource Example.badOutput
  = (Throw (newError "The path argument must be of type string"),
     Example.badOutput) /\
  compileToStringSync Example.spawn Example.spawnSync Example.succeeding
    Example.processOptions Example.toString Example.stringify
    Example.extname Example.tempOpen Example.compiledFile Example.oneSource
    Example.badOutput
  = (Throw (newError "The path argument must be of type string"),
     Example.badOutput).
Proof.
  split; [reflexivity|].
  exact (capture_throws_on_bad_output Example.spawn Example.spawnSync
           Example.succeeding Example.processOptions Example.toString
           Example.stringify Example.extname Example.tempOpen
           Example.compiledFile Example.oneSource Example.badOutput
           (newError "The path argument must be of type string") eq_refl).
Defined.

Lemma capture_without_temporary_file_witness :
  (getSuffix Example.extname (getProp (callerOptions Example.quiet) "output")
     ".js" = Ok ".js" /\
   Example.noTemp ".js" = Throw (newError "EACCES: permission denied, open")) /\
  compileToString Example.spawn Example.succeeding Example.processOptions
    Example.toString Example.stringify Example.extname Example.noTemp
    Example.compiledFile Example.oneSource Example.quiet
  = (Ok (Rejected (newError "EACCES: permission denied, open")),
     Example.quiet) /\
  compileToStringSync Example.spawn Example.spawnSync Example.succeeding
    Example.processOptions Example.toString Example.stringify
    Example.extname Example.noTemp Example.compiledFile Example.oneSource
    Example.quiet
  = (Throw (newError "EACCES: permission denied, open"), Example.quiet).
Proof.
  split; [split; reflexivity|].
  exact (capture_without_temporary_file Example.spawn Example.spawnSync
           Example.succeeding Example.processOptions Example.toString
           Example.stringify Example.extname Example.noTemp
           Example.compiledFile Example.oneSource Example.quiet ".js"
           (newError "EACCES: permission denied, open") eq_refl eq_refl).
Defined.

Lemma compileToString_rejects_compile_error_witness :
  (getSuffix Example.extname
     (getProp (callerOptions Example.fooStore) "output") ".js" = Ok ".js" /\
   Example.tempOpen ".js" = Ok "/tmp/elm.js") /\
  fst (compileToString Example.spawn Example.succeeding
         Example.processOptions Example.toString Example.stringify
         Example.extname Example.tempOpen Example.compiledFile
         Example.oneSource Example.fooStore)
  = Ok (Rejected (newError (Example.stringify (rejectionMessage "foo")))).
Proof.
  split; [split; reflexivity|].
  exact (f_equal fst
           (compileToString_rejects_compile_error Example.spawn
              Example.succeeding Example.processOptions Example.toString
              Example.stringify Example.extname Example.tempOpen
              Example.compiledFile Example.oneSource Example.fooStore
              (snd (compile Example.spawn Example.succeeding
                      Example.processOptions Example.toString
                      Example.stringify Example.oneSource
                      (overwritten (callerOptions Example.fooStore)
                         "/tmp/elm.js")
                      (mkStore
                         (overwritten (callerOptions Example.fooStore)
                            "/tmp/elm.js")
                         (trace Example.fooStore))))
              ".js" "/tmp/elm.js"
              (newError (Example.stringify (rejectionMessage "foo")))
              eq_refl eq_refl eq_refl)).
Defined.

Lemma compileToString_rejects_read_error_witness :
  (getSuffix Example.extname (getProp (callerOptions Example.quiet) "output")
     ".js" = Ok ".js" /\
   Example.tempOpen ".js" = Ok "/tmp/elm.js" /\
   exitCode Example.goodRun = Some 0%Z /\
   Example.unreadable "/tmp/elm.js"
   = Throw (newError "ENOENT: no such file or directory, open")) /\
  fst (compileToString Example.spawn Example.succeeding
         Example.processOptions Example.toString Example.stringify
         Example.extname Example.tempOpen Example.unreadable
         Example.oneSource Example.quiet)
  = Ok (Rejected (newError "ENOENT: no such file or directory, open")).
Proof.
  split; [repeat split|].
  exact (compileToString_rejects_read_error Example.spawn Example.succeeding
           Example.processOptions Example.toString Example.stringify
           Example.extname Example.tempOpen Example.unreadable
           Example.oneSource Example.quiet
           (snd (compile Example.spawn Example.succeeding
                   Example.processOptions Example.toString Example.stringify
                   Example.oneSource
                   (overwritten (callerOptions Example.quiet) "/tmp/elm.js")
                   (mkStore
                      (overwritten (callerOptions Example.quiet)
                         "/tmp/elm.js")
                      (trace Example.quiet))))
           ".js" "/tmp/elm.js" Example.goodRun
           (newError "ENOENT: no such file or directory, open")
           eq_refl eq_refl eq_refl eq_refl eq_refl).
Defined.

Lemma compileToString_logs_on_success_only_witness :
  (getSuffix Example.extname (getProp (callerOptions Example.chatty) "output")
     ".js" = Ok ".js" /\
   Example.tempOpen ".js" = Ok "/tmp/elm.js") /\
  filter (fun e => negb (isSpawn e))
    (trace
       (snd (compileToString Example.spawn Example.succeeding
               Example.processOptions Example.toString Example.stringify
               Example.extname Example.tempOpen Example.compiledFile
               Example.oneSource Example.chatty)))
  = [ELog [VStr "Running"; VStr "elm"; VStr "make"; VStr "Main.elm";
           VStr "--output"; VStr "/tmp/elm.js"];
     ELog [VStr "Success!"]] /\
  filter (fun e => negb (isSpawn e))
    (trace
       (snd (compileToString Example.spawn Example.failing
               Example.processOptions Example.toString Example.stringify
               Example.extname Example.tempOpen Example.compiledFile
               Example.oneSource Example.chatty)))
  = [ELog [VStr "Running"; VStr "elm"; VStr "make"; VStr "Main.elm";
           VStr "--output"; VStr "/tmp/elm.js"]].
Proof.
  split; [split; reflexivity|split].
  - rewrite (compileToString_logs_on_success_only Example.spawn
               Example.succeeding Example.processOptions Example.toString
               Example.stringify Example.extname Example.tempOpen
               Example.compiledFile Example.oneSource Example.chatty
               (snd (compile Example.spawn Example.succeeding
                       Example.processOptions Example.toString
                       Example.stringify Example.oneSource
                       (overwritten (callerOptions Example.chatty)
                          "/tmp/elm.js")
                       (mkStore
                          (overwritten (callerOptions Example.chatty)
                             "/tmp/elm.js")
                          (trace Example.chatty))))
               ".js" "/tmp/elm.js" Example.goodRun eq_refl eq_refl eq_refl).
    reflexivity.
  - rewrite (compileToString_logs_on_success_only Example.spawn
               Example.failing Example.processOptions Example.toString
               Example.stringify Example.extname Example.tempOpen
               Example.compiledFile Example.oneSource Example.chatty
               (snd (compile Example.spawn Example.failing
                       Example.processOptions Example.toString
                       Example.stringify Example.oneSource
                       (overwritten (callerOptions Example.chatty)
                          "/tmp/elm.js")
                       (mkStore
                          (overwritten (callerOptions Example.chatty)
                             "/tmp/elm.js")
                          (trace Example.chatty))))
               ".js" "/tmp/elm.js" Example.failedRun eq_refl eq_refl eq_refl).
    reflexivity.
Defined.

Lemma compileToStringSync_propagates_compile_error_witness :
  (getSuffix Example.extname
     (getProp (callerOptions Example.fooStore) "output") ".js" = Ok ".js" /\
   Example.tempOpen ".js" = Ok "/tmp/elm.js") /\
  fst (compileToStringSync Example.spawn Example.spawnSync Example.succeeding
         Example.processOptions Example.toString Example.stringify
         Example.extname Example.tempOpen Example.compiledFile
         Example.oneSource Example.fooStore)
  = Throw (newError (Example.stringify (rejectionMessage "foo"))).
Proof.
  split; [split; reflexivity|].
  exact (f_equal fst
           (compileToStringSync_propagates_compile_error Example.spawn
              Example.spawnSync Example.succeeding Example.processOptions
              Example.toString Example.stringify Example.extname
              Example.tempOpen Example.compiledFile Example.oneSource
              Example.fooStore
              (snd (compileSync Example.spawn Example.spawnSync
                      Example.succeeding Example.processOptions
                      Example.toString Example.stringify Example.oneSource
                      (setProp (callerOptions Example.fooStore) "output"
                         (VStr "/tmp/elm.js"))
                      (mkStore
                         (setProp (callerOptions Example.fooStore) "output"
                            (VStr "/tmp/elm.js"))
                         (trace Example.fooStore))))
              ".js" "/tmp/elm.js"
              (newError (Example.stringify (rejectionMessage "foo")))
              eq_refl eq_refl eq_refl)).
Defined.

Lemma second_capture_suffix_witness :
  (getSuffix Example.extname
     (getProp [("output", VStr "out/compiled.html")] "output") ".js"
   = Ok ".html" /\
   Example.tempOpen ".html" = Ok "/tmp/elm.html") /\
  getSuffix Example.extname
    (getProp
       (callerOptions
          (snd (compileToString Example.spawn Example.succeeding
                  Example.processOptions Example.toString Example.stringify
                  Example.extname Example.tempOpen Example.compiledFile
                  Example.oneSource
                  (mkStore [("output", VStr "out/compiled.html")] []))))
       "output")
    ".js"
  = getSuffix Example.extname (VStr "/tmp/elm.html") ".js".
Proof.
  split; [split; reflexivity|].
  exact (second_capture_suffix Example.spawn Example.succeeding
           Example.processOptions Example.toString Example.stringify
           Example.extname Example.tempOpen Example.compiledFile
           Example.oneSource
           (mkStore [("output", VStr "out/compiled.html")] [])
           ".html" "/tmp/elm.html" eq_refl eq_refl).
Defined.

(** ** The tests of the repository that need no compiler *)

(** "adds runtime options as arguments" *)
Example adds_runtime_options_as_arguments :
  prepareProcessArgs Example.spawn (VStr "a.elm")
    [("verbose", VBool true); ("cwd", VStr "fixtures");
     ("runtimeOptions", VArr [VStr "-A128M"; VStr "-H128M"; VStr "-n8m"])]
  = Ok [VStr "make"; VStr "a.elm"; VStr "+RTS"; VStr "-A128M"; VStr "-H128M";
        VStr "-n8m"; VStr "-RTS"].
Proof. reflexivity. Qed.

(** "throws when given an unrecognized argument" *)
Example throws_when_given_an_unrecognized_argument :
  compile Example.spawn Example.succeeding Example.processOptions
    Example.toString Example.stringify Example.oneSource Example.withFoo
    Example.quiet
  = (Throw (newError
              (Example.stringify
                 "node-elm-compiler was given an unrecognized Elm compiler option: foo")),
     Example.quiet).
Proof. reflexivity. Qed.

(** "handles output suffix correctly": the temporary file takes the
    extension of the configured output. *)
Example handles_output_suffix :
  getSuffix Example.extname (VStr "fixtures/compiled.html") ".js" = Ok ".html" /\
  getSuffix Example.extname VUndefined ".js" = Ok ".js" /\
  getSuffix Example.extname (VStr "fixtures/compiled") ".js" = Ok ".js".
Proof. repeat split. Qed.
